(** * generate-index.py: the package index generator

    A shallow embedding of [.github/workflows/scripts/generate-index.py]:
    [api_get], [fetch_packages], [generate_html] and [main], with the
    interpreter and the outside world (network, clock, JSON decoder, [repr])
    taken as a [Runtime] record.

    Python values are modelled as the interpreter has them: a [str] is a
    sequence of code points, [bytes] a sequence of bytes, the result of
    [json.loads] a tree of [pyval]; an exception is a [Raise] result that
    leaves the effects performed so far in place. *)

From Stdlib Require Import List String Ascii NArith ZArith Bool Lia.
From Stdlib Require Strings.Byte.
From Stdlib Require Import DecimalString SpecFloat.
From Stdlib Require Import Sorted Permutation.
Import ListNotations.

#[local] Set Warnings "-register-all".

Local Open Scope string_scope.
Local Open Scope list_scope.
Local Open Scope N_scope.

(** ** Python [str] and [bytes] *)

(** A Python [str] is a sequence of Unicode code points. *)
Definition str := list N.

(** A Python [bytes] object. *)
Definition bytes := list Byte.byte.

Definition is_cont (b : N) : bool := (128 <=? b) && (b <=? 191).

(** [bytes.decode()] with its defaults: strict UTF-8.  [None] stands for
    [UnicodeDecodeError]: a stray or missing continuation byte, an overlong
    form, a surrogate or a code point above U+10FFFF. *)
Fixpoint utf8_decode (bs : list N) : option str :=
  match bs with
  | [] => Some []
  | b0 :: r0 =>
    if b0 <? 128 then option_map (cons b0) (utf8_decode r0)
    else if (194 <=? b0) && (b0 <=? 223) then
      match r0 with
      | b1 :: r1 =>
        if is_cont b1
        then option_map (cons ((b0 - 192) * 64 + (b1 - 128))) (utf8_decode r1)
        else None
      | _ => None
      end
    else if (224 <=? b0) && (b0 <=? 239) then
      match r0 with
      | b1 :: b2 :: r2 =>
        let cp := (b0 - 224) * 4096 + (b1 - 128) * 64 + (b2 - 128) in
        if is_cont b1 && is_cont b2 && (2048 <=? cp)
           && negb ((55296 <=? cp) && (cp <=? 57343))
        then option_map (cons cp) (utf8_decode r2)
        else None
      | _ => None
      end
    else if (240 <=? b0) && (b0 <=? 244) then
      match r0 with
      | b1 :: b2 :: b3 :: r3 =>
        let cp := (b0 - 240) * 262144 + (b1 - 128) * 4096
                  + (b2 - 128) * 64 + (b3 - 128) in
        if is_cont b1 && is_cont b2 && is_cont b3
           && (65536 <=? cp) && (cp <=? 1114111)
        then option_map (cons cp) (utf8_decode r3)
        else None
      | _ => None
      end
    else None
  end.

Definition decode (b : bytes) : option str :=
  utf8_decode (map Byte.to_N b).

(** A string literal of the source.  The source file is UTF-8, and so is
    this one: the literal's bytes are decoded to code points. *)
Definition u (s : string) : str :=
  match decode (list_byte_of_string s) with
  | Some t => t
  | None => []
  end.

(** The double quote, and a literal given as its pieces between double
    quotes: [q [a; b; c]] is the text a"b"c. *)
Definition dquote : string := String (ascii_of_nat 34) EmptyString.

Definition q (chunks : list string) : str :=
  u (String.concat dquote chunks).

Fixpoint str_eqb (a b : str) : bool :=
  match a, b with
  | [], [] => true
  | x :: a', y :: b' => (x =? y) && str_eqb a' b'
  | _, _ => false
  end.

Fixpoint is_prefix (p s : str) : bool :=
  match p, s with
  | [], _ => true
  | x :: p', y :: s' => (x =? y) && is_prefix p' s'
  | _ :: _, [] => false
  end.

(** [needle in hay] on two [str]. *)
Fixpoint contains (needle hay : str) : bool :=
  is_prefix needle hay ||
  match hay with
  | [] => false
  | _ :: t => contains needle t
  end.

(** [s.replace(c, by)] for a one-character pattern [c]. *)
Definition replace_char (c : N) (by_ : str) (s : str) : str :=
  flat_map (fun x => if x =? c then by_ else [x]) s.

(** [a < b] on [str]: lexicographic on code points, a proper prefix first. *)
Fixpoint str_ltb (a b : str) : bool :=
  match a, b with
  | _, [] => false
  | [], _ :: _ => true
  | x :: a', y :: b' => (x <? y) || ((x =? y) && str_ltb a' b')
  end.

(** [str(n)] for an [int]. *)
Definition str_of_Z (z : Z) : str :=
  u (NilZero.string_of_int (Z.to_int z)).

(** [sep.join(parts)]. *)
Fixpoint join (sep : str) (parts : list str) : str :=
  match parts with
  | [] => []
  | [p] => p
  | p :: rest => p ++ sep ++ join sep rest
  end.

(** ** Values, exceptions and results *)

(** What [json.loads] returns: [None], [bool], [int], [float], [str],
    [list] and [dict].  A [dict] keeps its items in insertion order, one
    item per key, and every key decoded from JSON is a [str]. *)
Inductive pyval : Type :=
| PNone
| PBool (b : bool)
| PInt (z : Z)
| PFloat (f : spec_float)
| PStr (s : str)
| PList (l : list pyval)
| PDict (d : list (str * pyval)).

Definition type_name (v : pyval) : string :=
  match v with
  | PNone => "NoneType"
  | PBool _ => "bool"
  | PInt _ => "int"
  | PFloat _ => "float"
  | PStr _ => "str"
  | PList _ => "list"
  | PDict _ => "dict"
  end.

(** The exceptions this program can meet. *)
Inductive exn : Type :=
| SystemExit (code : Z)
| URLError (reason : str)
| UnicodeDecodeError
| JSONDecodeError
| AttributeError (ty attr : string)
| NameError (name : string)
| KeyError (key : str)
| IndexError
| ValueError (msg : string)
| NotModelled (what : string)
| InvalidURL
| UnicodeEncodeError
| RemoteDisconnected
| IncompleteRead.

Inductive result (A : Type) : Type :=
| Ok (a : A)
| Raise (e : exn).

Arguments Ok {A} a.
Arguments Raise {A} e.

(** Effectful code: a state transformer that ends in a value or in a
    raised exception; the state reached when the exception was raised is
    kept, as the effects of a Python program are. *)
Definition M (W A : Type) : Type := W -> result A * W.

Definition ret {W A} (a : A) : M W A := fun w => (Ok a, w).

Definition raise {W A} (e : exn) : M W A := fun w => (Raise e, w).

Definition bind {W A B} (m : M W A) (k : A -> M W B) : M W B :=
  fun w =>
    match m w with
    | (Ok a, w') => k a w'
    | (Raise e, w') => (Raise e, w')
    end.

Definition lift {W A} (r : result A) : M W A := fun w => (r, w).

Definition or_raise {W A} (e : exn) (o : option A) : M W A :=
  match o with
  | Some a => ret a
  | None => raise e
  end.

Declare Scope py_scope.
Delimit Scope py_scope with py.
Notation "x <- c1 ;; c2" := (bind c1 (fun x => c2))
  (at level 61, c1 at next level, right associativity) : py_scope.
Notation "c1 ;; c2" := (bind c1 (fun _ => c2))
  (at level 61, right associativity) : py_scope.
Local Open Scope py_scope.

(** A [for] loop that appends one result per item, in order; an exception
    in the body ends the loop. *)
Fixpoint for_each {W A B} (body : A -> M W B) (items : list A) : M W (list B) :=
  match items with
  | [] => ret []
  | x :: rest =>
    y <- body x ;;
    ys <- for_each body rest ;;
    ret (y :: ys)
  end.

(** A list comprehension without effects. *)
Fixpoint comprehension {A B} (f : A -> result B) (items : list A) : result (list B) :=
  match items with
  | [] => Ok []
  | x :: rest =>
    match f x with
    | Raise e => Raise e
    | Ok y =>
      match comprehension f rest with
      | Raise e => Raise e
      | Ok ys => Ok (y :: ys)
      end
    end
  end.

(** [d.get(k, dflt)] on the items of a dict. *)
Fixpoint dict_get (d : list (str * pyval)) (k : str) (dflt : pyval) : pyval :=
  match d with
  | [] => dflt
  | (k', v) :: rest => if str_eqb k' k then v else dict_get rest k dflt
  end.

Definition has_key (d : list (str * pyval)) (k : str) : bool :=
  existsb (fun kv => str_eqb (fst kv) k) d.

(** [v.get(k, dflt)]: only a dict has the method. *)
Definition py_get (v : pyval) (k : str) (dflt : pyval) : result pyval :=
  match v with
  | PDict d => Ok (dict_get d k dflt)
  | _ => Raise (AttributeError (type_name v) "get")
  end.

Definition is_list (v : pyval) : bool :=
  match v with
  | PList _ => true
  | _ => false
  end.

(** ** The records built by [fetch_packages]

    Each is a dict literal with a fixed set of keys, in this order.  A
    value taken from the API response is kept as it came. *)
Record version_record : Type := {
  v_name : pyval;
  v_created_at : pyval;
  v_updated_at : pyval;
  v_html_url : pyval
}.

Record package_record : Type := {
  name : str;
  package_type : pyval;
  html_url : pyval;
  created_at : pyval;
  updated_at : pyval;
  versions : list version_record
}.

(** ** The runtime and the world *)

Record request : Type := {
  req_url : str;
  req_headers : list (str * str)
}.

(** Why [urlopen] raises before anything is sent: the URL has a space or
    a control character ([InvalidURL]); the URL is not ASCII or the value
    of a header is not Latin-1 ([UnicodeEncodeError]); the value of a
    header has a line break ([ValueError]). *)
Inductive unsendable : Type :=
| BadURL
| NotEncodable
| BadHeader.

(** How an exchange breaks off after the request was sent: the server
    closes the connection without a response, or the body ends early. *)
Inductive break : Type :=
| Disconnected
| Incomplete.

Definition unsendable_exn (why : unsendable) : exn :=
  match why with
  | BadURL => InvalidURL
  | NotEncodable => UnicodeEncodeError
  | BadHeader => ValueError "Invalid header value"
  end.

Definition break_exn (how : break) : exn :=
  match how with
  | Disconnected => RemoteDisconnected
  | Incomplete => IncompleteRead
  end.

(** How a call of [urllib.request.urlopen], with the reading of the
    body, ends: a response with a 2xx status and its body, an [HTTPError]
    with the status and the body of the error response, a failure
    without any status ([URLError]: name resolution, refused connection),
    a request that cannot be sent, or an exchange that breaks off. *)
Inductive http_outcome : Type :=
| Resp (body : bytes)
| HTTPErr (code : Z) (body : bytes)
| ConnErr (reason : str)
| NotSent (why : unsendable)
| BrokenOff (how : break).

Record datetime : Type := {
  year : N; month : N; day : N; hour : N; minute : N; second : N
}.

(** What the program takes from outside its own text: the network and
    the clock (a state [Net] that every request may change) and the
    library functions [json.loads], [repr] and [float.__repr__]. *)
Class Runtime : Type := {
  Net : Type;
  urlopen : request -> Net -> http_outcome * Net;
  utcnow : Net -> datetime;
  json_loads : str -> option pyval;
  py_repr : pyval -> str;
  float_repr : spec_float -> str
}.

Section Program.

Context {R : Runtime}.

(** The state of a run: the outside, the calls of [urlopen] made so far,
    each with the request and the way it ended, what
    was printed on each stream (one entry per [print] call, without the
    newline that ends it), the directories made and the files written. *)
Record world : Type := {
  outside : Net;
  http_log : list (request * http_outcome);
  stdout : list str;
  stderr : list str;
  dirs : list str;
  files : list (str * str)
}.

Definition exchanged (req : request) (out : http_outcome) (n : Net) (w : world) : world :=
  {| outside := n; http_log := http_log w ++ [(req, out)];
     stdout := stdout w; stderr := stderr w; dirs := dirs w; files := files w |}.

Definition printed (line : str) (w : world) : world :=
  {| outside := outside w; http_log := http_log w;
     stdout := stdout w ++ [line]; stderr := stderr w;
     dirs := dirs w; files := files w |}.

Definition printed_err (line : str) (w : world) : world :=
  {| outside := outside w; http_log := http_log w;
     stdout := stdout w; stderr := stderr w ++ [line];
     dirs := dirs w; files := files w |}.

Definition print (line : str) : M world unit :=
  fun w => (Ok tt, printed line w).

Definition print_stderr (line : str) : M world unit :=
  fun w => (Ok tt, printed_err line w).

Definition do_urlopen (req : request) : M world http_outcome :=
  fun w =>
    let (out, n) := urlopen req (outside w) in
    (Ok out, exchanged req out n w).

(** [format(v)] in an f-string: a [str] as it is, anything else by [repr]. *)
Definition py_str (v : pyval) : str :=
  match v with
  | PStr s => s
  | _ => py_repr v
  end.

(** ** [api_get] *)

Definition api_request (url token : str) : request :=
  {| req_url := url;
     req_headers :=
       [ (u "Accept", u "application/vnd.github+json");
         (u "Authorization", u "Bearer " ++ token);
         (u "X-GitHub-Api-Version", u "2022-11-28") ] |}.

Definition empty_default (url : str) : pyval :=
  if contains (u "versions") url || contains (u "packages") url
  then PList []
  else PDict [].

Definition api_get (url token : str) : M world pyval :=
  out <- do_urlopen (api_request url token) ;;
  match out with
  | Resp body =>
    text <- or_raise UnicodeDecodeError (decode body) ;;
    or_raise JSONDecodeError (json_loads text)
  | HTTPErr code body =>
    text <- or_raise UnicodeDecodeError (decode body) ;;
    print_stderr (u "API error " ++ str_of_Z code ++ u " for " ++ url
                  ++ u ": " ++ text) ;;
    ret (empty_default url)
  | ConnErr reason => raise (URLError reason)
  | NotSent why => raise (unsendable_exn why)
  | BrokenOff how => raise (break_exn how)
  end.

(** ** [fetch_packages] *)

Definition packages_url (owner : str) : str :=
  u "https://api.github.com/users/" ++ owner
  ++ u "/packages?package_type=maven&per_page=100".

Definition versions_url (owner encoded : str) : str :=
  u "https://api.github.com/users/" ++ owner ++ u "/packages/maven/"
  ++ encoded ++ u "/versions?per_page=50".

(** One item of the comprehension over [versions]. *)
Definition version_record_of (v : pyval) : result version_record :=
  match v with
  | PDict d =>
    Ok {| v_name := dict_get d (u "name") (PStr []);
          v_created_at := dict_get d (u "created_at") (PStr []);
          v_updated_at := dict_get d (u "updated_at") (PStr []);
          v_html_url := dict_get d (u "html_url") (PStr []) |}
  | _ => Raise (AttributeError (type_name v) "get")
  end.

(** The body of the loop over [packages]. *)
Definition fetch_packages_body (owner token : str) (pkg : pyval)
  : M world package_record :=
  match pkg with
  | PDict d =>
    let name_ := dict_get d (u "name") (PStr []) in
    print (u "  Fetching versions for: " ++ py_str name_) ;;
    match name_ with
    | PStr s =>
      let encoded := replace_char 47 (u "%2F") s in
      versions_ <- api_get (versions_url owner encoded) token ;;
      vs <- lift (comprehension version_record_of
                    (match versions_ with PList l => l | _ => [] end)) ;;
      ret {| name := s;
             package_type := dict_get d (u "package_type") (PStr (u "maven"));
             html_url := dict_get d (u "html_url") (PStr []);
             created_at := dict_get d (u "created_at") (PStr []);
             updated_at := dict_get d (u "updated_at") (PStr []);
             versions := vs |}
    | _ => raise (AttributeError (type_name name_) "replace")
    end
  | _ => raise (AttributeError (type_name pkg) "get")
  end.

(** [result.sort(key=lambda p: p['name'])]: the stable ascending sort.
    [list.sort] compares keys with [<] only and keeps items with equal
    keys in their order; insertion from the right does the same. *)
Fixpoint insert_by_name (p : package_record) (l : list package_record)
  : list package_record :=
  match l with
  | [] => [p]
  | x :: rest =>
    if str_ltb (name x) (name p) then x :: insert_by_name p rest
    else p :: x :: rest
  end.

Definition sort_by_name (l : list package_record) : list package_record :=
  fold_right insert_by_name [] l.

Definition fetch_packages (owner token : str) : M world (list package_record) :=
  packages <- api_get (packages_url owner) token ;;
  match packages with
  | PList l =>
    result_ <- for_each (fetch_packages_body owner token) l ;;
    ret (sort_by_name result_)
  | _ =>
    print_stderr (u "Unexpected response: " ++ py_str packages) ;;
    ret []
  end.

End Program.

(** ** [json.dumps(obj, ensure_ascii=False)] *)

Definition hex_digit (n : N) : N := if n <? 10 then 48 + n else 87 + n.

(** The replacement of one character inside a JSON string: the backslash,
    the double quote and the characters below U+0020 are escaped, every
    other character is written as it is. *)
Definition escape_char (c : N) : str :=
  if c =? 92 then u "\\"
  else if c =? 34 then [92; 34]
  else if c =? 8 then u "\b"
  else if c =? 12 then u "\f"
  else if c =? 10 then u "\n"
  else if c =? 13 then u "\r"
  else if c =? 9 then u "\t"
  else if c <? 32 then u "\u00" ++ [hex_digit (c / 16); hex_digit (c mod 16)]
  else [c].

Definition encode_basestring (s : str) : str :=
  [34] ++ flat_map escape_char s ++ [34].

Section Dumps.

Context {R : Runtime}.

Definition encode_float (f : spec_float) : str :=
  match f with
  | S754_nan => u "NaN"
  | S754_infinity false => u "Infinity"
  | S754_infinity true => u "-Infinity"
  | _ => float_repr f
  end.

Fixpoint json_dumps (v : pyval) : str :=
  match v with
  | PNone => u "null"
  | PBool true => u "true"
  | PBool false => u "false"
  | PInt z => str_of_Z z
  | PFloat f => encode_float f
  | PStr s => encode_basestring s
  | PList l => u "[" ++ join (u ", ") (map json_dumps l) ++ u "]"
  | PDict d =>
    u "{"
    ++ join (u ", ")
         (map (fun kv => match kv with
                         | (k, x) => encode_basestring k ++ u ": " ++ json_dumps x
                         end) d)
    ++ u "}"
  end.

End Dumps.

(** The dicts that the records stand for. *)
Definition version_to_py (v : version_record) : pyval :=
  PDict [ (u "name", v_name v);
          (u "created_at", v_created_at v);
          (u "updated_at", v_updated_at v);
          (u "html_url", v_html_url v) ].

Definition package_to_py (p : package_record) : pyval :=
  PDict [ (u "name", PStr (name p));
          (u "package_type", package_type p);
          (u "html_url", html_url p);
          (u "created_at", created_at p);
          (u "updated_at", updated_at p);
          (u "versions", PList (map version_to_py (versions p))) ].

Definition packages_to_py (packages : list package_record) : pyval :=
  PList (map package_to_py packages).

(** ** Formatted string literals and [str.format] *)

(** An f-string after parsing: literal text (a doubled brace of the source
    is one brace here) and replacement fields, each a name. *)
Inductive piece : Type :=
| Lit (text : str)
| Field (expr : string).

(** The value of a local variable or keyword argument. *)
Inductive local_value : Type :=
| LStr (s : str)
| LInt (z : Z)
| LRecords (l : list package_record).

Fixpoint lookup {A} (x : string) (scope : list (string * A)) : option A :=
  match scope with
  | [] => None
  | (y, v) :: rest => if String.eqb x y then Some v else lookup x rest
  end.

Definition map_result {A B} (f : A -> B) (r : result A) : result B :=
  match r with
  | Ok a => Ok (f a)
  | Raise e => Raise e
  end.

(** The part of [str.format] with keyword arguments that the program can
    reach: text,
    doubled braces and fields that are a plain keyword name.  A field is
    read up to the next closing brace; its name ends at the first [!] or
    [:], and its first component at the first dot or opening bracket.  There are no
    positional arguments, so an empty or numeric name is an [IndexError]
    and an unknown name a [KeyError]; a conversion, format specification
    or accessor on a known name is outside the model. *)
Fixpoint before (stop : N -> bool) (s : str) : str :=
  match s with
  | [] => []
  | c :: rest => if stop c then [] else c :: before stop rest
  end.

Definition is_digit (c : N) : bool := (48 <=? c) && (c <=? 57).

Fixpoint lookup_str {A} (x : str) (scope : list (string * A)) : option A :=
  match scope with
  | [] => None
  | (y, v) :: rest => if str_eqb x (u y) then Some v else lookup_str x rest
  end.

Section Render.

Context {R : Runtime}.

(** [format(v, '')]. *)
Definition format_value (v : local_value) : str :=
  match v with
  | LStr s => s
  | LInt z => str_of_Z z
  | LRecords l => py_repr (packages_to_py l)
  end.

(** Evaluation of an f-string in the scope of the running function: the
    fields are evaluated from left to right, and a name that is bound
    nowhere raises [NameError]. *)
Fixpoint eval_fstring (t : list piece) (scope : list (string * local_value))
  : result str :=
  match t with
  | [] => Ok []
  | Lit text :: rest => map_result (app text) (eval_fstring rest scope)
  | Field x :: rest =>
    match lookup x scope with
    | None => Raise (NameError x)
    | Some v => map_result (app (format_value v)) (eval_fstring rest scope)
    end
  end.

Definition format_field (field : str) (kwargs : list (string * local_value))
  : result str :=
  let arg := before (fun c => (c =? 33) || (c =? 58)) field in
  let first := before (fun c => (c =? 46) || (c =? 91)) arg in
  if forallb is_digit first then Raise IndexError
  else
    match lookup_str first kwargs with
    | None => Raise (KeyError first)
    | Some v =>
      if (List.length first =? List.length field)%nat then Ok (format_value v)
      else Raise (NotModelled "conversion, format specification or accessor")
    end.

Fixpoint py_format_from (s : str) (field : option str)
    (kwargs : list (string * local_value)) : result str :=
  match s with
  | [] =>
    match field with
    | None => Ok []
    | Some _ => Raise (ValueError "expected '}' before end of string")
    end
  | c :: rest =>
    match field with
    | Some acc =>
      if c =? 125 then
        match format_field (rev acc) kwargs with
        | Raise e => Raise e
        | Ok v => map_result (app v) (py_format_from rest None kwargs)
        end
      else py_format_from rest (Some (c :: acc)) kwargs
    | None =>
      if c =? 123 then
        match rest with
        | c' :: rest' =>
          if c' =? 123 then map_result (cons 123) (py_format_from rest' None kwargs)
          else py_format_from rest (Some []) kwargs
        | [] => Raise (ValueError "Single '{' encountered in format string")
        end
      else if c =? 125 then
        match rest with
        | c' :: rest' =>
          if c' =? 125 then map_result (cons 125) (py_format_from rest' None kwargs)
          else Raise (ValueError "Single '}' encountered in format string")
        | [] => Raise (ValueError "Single '}' encountered in format string")
        end
      else map_result (cons c) (py_format_from rest None kwargs)
    end
  end.

Definition py_format (s : str) (kwargs : list (string * local_value)) : result str :=
  py_format_from s None kwargs.

End Render.

(** ** The text of the page

    The pieces of the f-string returned by [generate_html], in order. *)

Definition tpl_0 : str := q [
"<!DOCTYPE html>
<html lang=";
"zh-CN";
">
<head>
<meta charset=";
"UTF-8";
">
<meta name=";
"viewport";
" content=";
"width=device-width, initial-scale=1.0";
">
<title>OpenStack4j Maven Packages</title>
<link href=";
"https://fonts.googleapis.com/css2?family=JetBrains+Mono:wght@400;500;700&family=DM+Sans:wght@400;500;600;700&display=swap";
" rel=";
"stylesheet";
">
<style>
  :root {
    --bg: #0d1117;
    --surface: #161b22;
    --surface-2: #1c2129;
    --border: #30363d;
    --border-active: #58a6ff;
    --text: #e6edf3;
    --text-muted: #8b949e;
    --text-dim: #6e7681;
    --accent: #58a6ff;
    --accent-glow: rgba(88, 166, 255, 0.15);
    --green: #3fb950;
    --orange: #d29922;
    --red: #f85149;
    --purple: #bc8cff;
    --mono: 'JetBrains Mono', monospace;
    --sans: 'DM Sans', sans-serif;
  }
  * { margin: 0; padding: 0; box-sizing: border-box; }
  body {
    background: var(--bg);
    color: var(--text);
    font-family: var(--sans);
    min-height: 100vh;
    line-height: 1.6;
  }

  .header {
    border-bottom: 1px solid var(--border);
    padding: 2rem 0;
    background: linear-gradient(180deg, #111820 0%, var(--bg) 100%);
  }
  .container { max-width: 960px; margin: 0 auto; padding: 0 1.5rem; }
  .header-inner { display: flex; align-items: center; gap: 1rem; }
  .logo-icon {
    width: 44px; height: 44px;
    background: linear-gradient(135deg, var(--accent), var(--purple));
    border-radius: 10px;
    display: flex; align-items: center; justify-content: center;
    font-family: var(--mono); font-weight: 700; font-size: 18px; color: #fff;
    flex-shrink: 0;
  }
  .header-text h1 { font-size: 1.5rem; font-weight: 700; letter-spacing: -0.02em; }
  .header-text h1 span { color: var(--text-muted); font-weight: 400; }
  .header-meta {
    display: flex; gap: 1.5rem; margin-top: 0.4rem;
    font-size: 0.78rem; color: var(--text-dim); font-family: var(--mono);
  }
  .header-meta a { color: var(--accent); text-decoration: none; }
  .header-meta a:hover { text-decoration: underline; }

  .summary {
    display: flex; gap: 1.5rem; padding: 1rem 0; margin-bottom: 1rem;
    border-bottom: 1px solid var(--border);
    font-size: 0.8rem; color: var(--text-muted); font-family: var(--mono);
  }
  .summary strong { color: var(--text); }

  .main { padding: 2rem 0 4rem; }

  .package-card {
    background: var(--surface);
    border: 1px solid var(--border);
    border-radius: 8px;
    margin-bottom: 0.75rem;
    overflow: hidden;
    transition: border-color 0.2s;
  }
  .package-card:hover { border-color: var(--border-active); }
  .package-header {
    padding: 1rem 1.25rem;
    display: flex; align-items: center; justify-content: space-between;
    cursor: pointer; user-select: none;
  }
  .package-name {
    font-family: var(--mono); font-size: 0.88rem; font-weight: 600; color: var(--accent);
  }
  .package-name a { color: inherit; text-decoration: none; }
  .package-name a:hover { text-decoration: underline; }
  .package-meta { display: flex; align-items: center; gap: 1rem; }
  .badge {
    font-size: 0.65rem; font-family: var(--mono);
    padding: 0.15rem 0.45rem; border-radius: 4px;
    text-transform: uppercase; font-weight: 600;
  }
  .badge-maven { background: var(--accent-glow); color: var(--accent); }
  .badge-snapshot { background: rgba(210, 153, 34, 0.15); color: var(--orange); }
  .badge-release { background: rgba(63, 185, 80, 0.15); color: var(--green); }
  .version-count { font-size: 0.75rem; color: var(--text-muted); font-family: var(--mono); }
  .chevron {
    color: var(--text-dim); transition: transform 0.2s; font-size: 0.7rem;
  }
  .package-card.open .chevron { transform: rotate(90deg); }
  .version-list { display: none; border-top: 1px solid var(--border); }
  .package-card.open .version-list { display: block; }
  .version-item {
    padding: 0.6rem 1.25rem;
    display: flex; align-items: center; justify-content: space-between;
    border-bottom: 1px solid rgba(48, 54, 61, 0.5);
    font-size: 0.8rem;
    transition: background 0.15s;
  }
  .version-item:last-child { border-bottom: none; }
  .version-item:hover { background: var(--surface-2); }
  .version-tag {
    font-family: var(--mono); font-weight: 500; color: var(--text);
    display: flex; align-items: center; gap: 0.5rem;
  }
  .version-date { font-family: var(--mono); font-size: 0.75rem; color: var(--text-dim); }

  /* Usage section */
  .usage-section {
    background: var(--surface);
    border: 1px solid var(--border);
    border-radius: 8px;
    padding: 1.5rem;
    margin-top: 2rem;
  }
  .usage-section h3 {
    font-size: 0.85rem; color: var(--text-muted);
    text-transform: uppercase; letter-spacing: 0.05em;
    margin-bottom: 1rem; font-weight: 600;
  }
  .code-label {
    font-size: 0.75rem; color: var(--text-dim);
    margin-bottom: 0.4rem; font-family: var(--mono);
    margin-top: 1rem;
  }
  .code-label:first-of-type { margin-top: 0; }
  .code-block {
    background: var(--bg);
    border: 1px solid var(--border);
    border-radius: 6px;
    padding: 1rem;
    font-family: var(--mono);
    font-size: 0.76rem;
    line-height: 1.7;
    overflow-x: auto;
    position: relative;
    white-space: pre;
  }
  .code-block .t { color: var(--red); }
  .code-block .v { color: var(--green); }
  .code-block .c { color: var(--text-dim); font-style: italic; }
  .copy-btn {
    position: absolute; top: 0.5rem; right: 0.5rem;
    background: var(--surface-2);
    border: 1px solid var(--border);
    color: var(--text-muted);
    border-radius: 4px;
    padding: 0.2rem 0.5rem;
    font-size: 0.68rem;
    font-family: var(--mono);
    cursor: pointer;
    transition: all 0.15s;
  }
  .copy-btn:hover { color: var(--text); border-color: var(--accent); }

  .footer {
    text-align: center; padding: 2rem 0;
    font-size: 0.72rem; color: var(--text-dim);
    font-family: var(--mono);
    border-top: 1px solid var(--border);
  }
  .footer a { color: var(--accent); text-decoration: none; }
</style>
</head>
<body>

<div class=";
"header";
">
  <div class=";
"container";
">
    <div class=";
"header-inner";
">
      <div class=";
"logo-icon";
">O4</div>
      <div class=";
"header-text";
">
        <h1>openstack4j <span>packages</span></h1>
        <div class=";
"header-meta";
">
          <span>üì¶ registry: maven</span>
          <a href=";
"https://github.com/" ].

Definition tpl_1 : str := q [
"/" ].

Definition tpl_2 : str := q [
EmptyString;
">github.com/" ].

Definition tpl_3 : str := q [
"/" ].

Definition tpl_4 : str := q [
"</a>
          <span>Êõ¥Êñ∞‰∫é " ].

Definition tpl_5 : str := q [
"</span>
        </div>
      </div>
    </div>
  </div>
</div>

<div class=";
"main";
">
  <div class=";
"container";
">
    <div class=";
"summary";
">
      <span><strong>" ].

Definition tpl_6 : str := q [
"</strong> ÂåÖ</span>
      <span><strong>" ].

Definition tpl_7 : str := q [
"</strong> ÁâàÊú¨</span>
      <span>commit: <strong><a href=";
"https://github.com/" ].

Definition tpl_8 : str := q [
"/" ].

Definition tpl_9 : str := q [
"/commit/" ].

Definition tpl_10 : str := q [
EmptyString;
" style=";
"color:var(--text);text-decoration:none";
">" ].

Definition tpl_11 : str := q [
"</a></strong></span>
    </div>

    <div id=";
"packageList";
"></div>

    <div class=";
"usage-section";
">
      <h3>‰ΩøÁî®ÊñπÊ≥ï / Usage</h3>

      <div class=";
"code-label";
">~/.m2/settings.xml</div>
      <div class=";
"code-block";
"><span class=";
"t";
">&lt;servers&gt;</span>
  <span class=";
"t";
">&lt;server&gt;</span>
    <span class=";
"t";
">&lt;id&gt;</span><span class=";
"v";
">github</span><span class=";
"t";
">&lt;/id&gt;</span>
    <span class=";
"t";
">&lt;username&gt;</span><span class=";
"v";
">YOUR_GITHUB_USERNAME</span><span class=";
"t";
">&lt;/username&gt;</span>
    <span class=";
"t";
">&lt;password&gt;</span><span class=";
"v";
">ghp_xxxxxxxxxxxx</span><span class=";
"t";
">&lt;/password&gt;</span>  <span class=";
"c";
">&lt;!-- read:packages scope --&gt;</span>
  <span class=";
"t";
">&lt;/server&gt;</span>
<span class=";
"t";
">&lt;/servers&gt;</span><button class=";
"copy-btn";
" onclick=";
"copyBlock(this)";
">Copy</button></div>

      <div class=";
"code-label";
">pom.xml ‚Äî Ê∑ªÂä†‰ªìÂ∫ì</div>
      <div class=";
"code-block";
"><span class=";
"t";
">&lt;repositories&gt;</span>
  <span class=";
"t";
">&lt;repository&gt;</span>
    <span class=";
"t";
">&lt;id&gt;</span><span class=";
"v";
">github</span><span class=";
"t";
">&lt;/id&gt;</span>
    <span class=";
"t";
">&lt;url&gt;</span><span class=";
"v";
">https://maven.pkg.github.com/" ].

Definition tpl_12 : str := q [
"/" ].

Definition tpl_13 : str := q [
"</span><span class=";
"t";
">&lt;/url&gt;</span>
    <span class=";
"t";
">&lt;snapshots&gt;&lt;enabled&gt;</span><span class=";
"v";
">true</span><span class=";
"t";
">&lt;/enabled&gt;&lt;/snapshots&gt;</span>
  <span class=";
"t";
">&lt;/repository&gt;</span>
<span class=";
"t";
">&lt;/repositories&gt;</span><button class=";
"copy-btn";
" onclick=";
"copyBlock(this)";
">Copy</button></div>

      <div class=";
"code-label";
">pom.xml ‚Äî Ê∑ªÂä†‰æùËµñÔºàÁ§∫‰æãÔºâ</div>
      <div class=";
"code-block";
"><span class=";
"t";
">&lt;dependency&gt;</span>
  <span class=";
"t";
">&lt;groupId&gt;</span><span class=";
"v";
">com.github.openstack4j.core</span><span class=";
"t";
">&lt;/groupId&gt;</span>
  <span class=";
"t";
">&lt;artifactId&gt;</span><span class=";
"v";
">openstack4j-core</span><span class=";
"t";
">&lt;/artifactId&gt;</span>
  <span class=";
"t";
">&lt;version&gt;</span><span class=";
"v";
">3.13-SNAPSHOT</span><span class=";
"t";
">&lt;/version&gt;</span>
<span class=";
"t";
">&lt;/dependency&gt;</span>
<span class=";
"t";
">&lt;dependency&gt;</span>
  <span class=";
"t";
">&lt;groupId&gt;</span><span class=";
"v";
">com.github.openstack4j.core.connectors</span><span class=";
"t";
">&lt;/groupId&gt;</span>
  <span class=";
"t";
">&lt;artifactId&gt;</span><span class=";
"v";
">openstack4j-okhttp</span><span class=";
"t";
">&lt;/artifactId&gt;</span>
  <span class=";
"t";
">&lt;version&gt;</span><span class=";
"v";
">3.13-SNAPSHOT</span><span class=";
"t";
">&lt;/version&gt;</span>
<span class=";
"t";
">&lt;/dependency&gt;</span><button class=";
"copy-btn";
" onclick=";
"copyBlock(this)";
">Copy</button></div>
    </div>
  </div>
</div>

<div class=";
"footer";
">
  Auto-generated by <a href=";
"https://github.com/" ].

Definition tpl_14 : str := q [
"/" ].

Definition tpl_15 : str := q [
"/actions";
">GitHub Actions</a> ¬∑ " ].

Definition tpl_16 : str := q [
"
</div>

<script>
const PACKAGES = " ].

Definition tpl_17 : str := q [
";

function render() {
  const container = document.getElementById('packageList');
  let html = '';

  for (const pkg of PACKAGES) {
    const versions = pkg.versions || [];
    const vItems = versions.map(v => {
      const isSnap = v.name.includes('SNAPSHOT');
      const badge = isSnap
        ? '<span class=";
"badge badge-snapshot";
">snapshot</span>'
        : '<span class=";
"badge badge-release";
">release</span>';
      const date = v.updated_at
        ? new Date(v.updated_at).toLocaleDateString('zh-CN', {
            year:'numeric', month:'2-digit', day:'2-digit',
            hour:'2-digit', minute:'2-digit'
          })
        : '';
      return `<div class=";
"version-item";
">
        <span class=";
"version-tag";
">${v.name} ${badge}</span>
        <span class=";
"version-date";
">${date}</span>
      </div>`;
    }).join('');

    const ghUrl = pkg.html_url || '#';
    html += `<div class=";
"package-card";
" onclick=";
"this.classList.toggle('open')";
">
      <div class=";
"package-header";
">
        <span class=";
"package-name";
"><a href=";
"${ghUrl}";
" target=";
"_blank";
" onclick=";
"event.stopPropagation()";
">${pkg.name}</a></span>
        <div class=";
"package-meta";
">
          <span class=";
"badge badge-maven";
">maven</span>
          <span class=";
"version-count";
">${versions.length} ÁâàÊú¨</span>
          <span class=";
"chevron";
">‚ñ∂</span>
        </div>
      </div>
      <div class=";
"version-list";
" onclick=";
"event.stopPropagation()";
">
        ${vItems || '<div class=";
"version-item";
"><span class=";
"version-tag";
" style=";
"color:var(--text-dim)";
">Êó†ÁâàÊú¨‰ø°ÊÅØ</span></div>'}
      </div>
    </div>`;
  }

  container.innerHTML = html;
}

function copyBlock(btn) {
  const block = btn.parentElement;
  const text = block.innerText.replace(/Copy|Copied!/g, '').trim();
  navigator.clipboard.writeText(text).then(() => {
    btn.textContent = 'Copied!';
    setTimeout(() => btn.textContent = 'Copy', 1500);
  });
}

render();
</script>

</body>
</html>" ].

Definition template : list piece :=
  [ Lit tpl_0;
    Field "owner";
    Lit tpl_1;
    Field "repo";
    Lit tpl_2;
    Field "owner";
    Lit tpl_3;
    Field "repo";
    Lit tpl_4;
    Field "build_time";
    Lit tpl_5;
    Field "pkg_count";
    Lit tpl_6;
    Field "ver_count";
    Lit tpl_7;
    Field "owner";
    Lit tpl_8;
    Field "repo";
    Lit tpl_9;
    Field "commit_sha";
    Lit tpl_10;
    Field "short_sha";
    Lit tpl_11;
    Field "owner";
    Lit tpl_12;
    Field "repo";
    Lit tpl_13;
    Field "owner";
    Lit tpl_14;
    Field "repo";
    Lit tpl_15;
    Field "build_time";
    Lit tpl_16;
    Field "pkg_json";
    Lit tpl_17 ].

Section Page.

Context {R : Runtime}.

(** ** [generate_html] *)

Definition pad2 (n : N) : str :=
  if n <? 10 then u "0" ++ str_of_Z (Z.of_N n) else str_of_Z (Z.of_N n).

(** [strftime('%Y-%m-%d %H:%M:%S UTC')]. *)
Definition strftime (d : datetime) : str :=
  str_of_Z (Z.of_N (year d)) ++ u "-" ++ pad2 (month d) ++ u "-" ++ pad2 (day d)
  ++ u " " ++ pad2 (hour d) ++ u ":" ++ pad2 (minute d) ++ u ":" ++ pad2 (second d)
  ++ u " UTC".

Definition now_utc : M world datetime :=
  fun w => (Ok (utcnow (outside w)), w).

(** [sum(len(p['versions']) for p in packages)]. *)
Definition total_versions (packages : list package_record) : Z :=
  fold_right Z.add 0%Z (map (fun p => Z.of_nat (List.length (versions p))) packages).

Definition pkg_json (packages : list package_record) : str :=
  json_dumps (packages_to_py packages).

Definition short_sha (commit_sha : str) : str :=
  match commit_sha with
  | [] => []
  | _ :: _ => firstn 7 commit_sha
  end.

(** The local variables of [generate_html] where it returns. *)
Definition locals (packages : list package_record) (owner repo commit_sha : str)
    (build_time : str) : list (string * local_value) :=
  [ ("packages", LRecords packages);
    ("owner", LStr owner);
    ("repo", LStr repo);
    ("commit_sha", LStr commit_sha);
    ("build_time", LStr build_time);
    ("short_sha", LStr (short_sha commit_sha));
    ("pkg_json", LStr (pkg_json packages));
    ("total_versions", LInt (total_versions packages)) ].

(** The keyword arguments of the call of [format]. *)
Definition format_kwargs (packages : list package_record)
    (owner repo commit_sha : str) (build_time : str)
  : list (string * local_value) :=
  [ ("owner", LStr owner);
    ("repo", LStr repo);
    ("build_time", LStr build_time);
    ("commit_sha", LStr commit_sha);
    ("short_sha", LStr (short_sha commit_sha));
    ("pkg_count", LInt (Z.of_nat (List.length packages)));
    ("ver_count", LInt (total_versions packages));
    ("pkg_json", LStr (pkg_json packages)) ].

(** The returned expression is an f-string on which [format] is then
    called: the f-string is evaluated first, in the scope of the function
    (no module-level name and no builtin is called [pkg_count] or
    [ver_count]), and [format] is applied to its value. *)
Definition generate_html (packages : list package_record)
    (owner repo commit_sha : str) : M world str :=
  now <- now_utc ;;
  let build_time := strftime now in
  text <- lift (eval_fstring template
                  (locals packages owner repo commit_sha build_time)) ;;
  lift (py_format text (format_kwargs packages owner repo commit_sha build_time)).

(** ** [main] *)

Definition usage : str :=
  u "Usage: python3 generate-index.py <owner> <repo> <token> [commit_sha]".

Definition makedirs (path : str) : M world unit :=
  fun w =>
    (Ok tt,
     {| outside := outside w; http_log := http_log w; stdout := stdout w;
        stderr := stderr w; dirs := path :: dirs w; files := files w |}).

Definition write_file (path text : str) : M world unit :=
  fun w =>
    (Ok tt,
     {| outside := outside w; http_log := http_log w; stdout := stdout w;
        stderr := stderr w; dirs := dirs w; files := (path, text) :: files w |}).

(** [argv] is [sys.argv]: the name of the script, then the arguments. *)
Definition main (argv : list str) : M world unit :=
  if (List.length argv <? 4)%nat then
    print usage ;;
    raise (SystemExit 1)
  else
    let owner := nth 1 argv [] in
    let repo := nth 2 argv [] in
    let token := nth 3 argv [] in
    let commit_sha := if (4 <? List.length argv)%nat then nth 4 argv [] else [] in
    print (u "Fetching packages for " ++ owner ++ u "/" ++ repo ++ u "...") ;;
    packages <- fetch_packages owner token ;;
    print (u "Found " ++ str_of_Z (Z.of_nat (List.length packages)) ++ u " packages") ;;
    html <- generate_html packages owner repo commit_sha ;;
    makedirs (u "_site") ;;
    write_file (u "_site/index.html") html ;;
    print (u "Generated _site/index.html ("
           ++ str_of_Z (Z.of_nat (List.length html)) ++ u " bytes)").

(** The arguments given on the command line. *)
Definition positional (argv : list str) : list str := tl argv.

(** The exit status that the program itself asks for, by [sys.exit]. *)
Definition requested_exit {A} (r : result A) : option Z :=
  match r with
  | Raise (SystemExit c) => Some c
  | _ => None
  end.

(** A computation is [quiet] when it writes no file, never asks for an
    exit status, and ends in [URLError] whenever one of the requests it
    made failed without an HTTP status. *)
Definition quiet {A} (m : M world A) : Prop :=
  forall w r w', m w = (r, w') ->
    files w' = files w
    /\ requested_exit r = None
    /\ exists new,
         http_log w' = http_log w ++ new
         /\ forall req reason,
              In (req, ConnErr reason) new -> r = Raise (URLError reason).

End Page.

(** ** Orders, occurrences and concrete runtimes used in the statements *)

(** Ascending lexicographic order on code points: case-sensitive, since an
    upper-case letter and its lower-case form are different code points. *)
Inductive lex_le : str -> str -> Prop :=
| lex_le_nil : forall b, lex_le [] b
| lex_le_lt : forall x y a b, x < y -> lex_le (x :: a) (y :: b)
| lex_le_eq : forall x a b, lex_le a b -> lex_le (x :: a) (x :: b).

Definition name_le (p r : package_record) : Prop := lex_le (name p) (name r).

(** [s] occurs in [t]. *)
Definition occurs_in (s t : str) : Prop :=
  exists pre post, t = pre ++ s ++ post.

(** A character that [json.dumps] writes as it is. *)
Definition plain_char (c : N) : Prop := 32 <= c /\ c <> 34 /\ c <> 92.

(** The bytes of a text given as its pieces between double quotes. *)
Definition bq (chunks : list string) : bytes :=
  list_byte_of_string (String.concat dquote chunks).

Fixpoint assoc {A} (k : str) (l : list (str * A)) : option A :=
  match l with
  | [] => None
  | (k', v) :: rest => if str_eqb k k' then Some v else assoc k rest
  end.

(** A runtime given by tables: the outcome of the request to each URL (no
    entry: the host cannot be reached) and the value of each JSON text.
    Nothing in it changes between requests. *)
Definition table_runtime (responses : list (str * http_outcome))
    (documents : list (str * pyval)) : Runtime :=
  {| Net := unit;
     urlopen := fun req n =>
       (match assoc (req_url req) responses with
        | Some o => o
        | None => ConnErr (u "unreachable")
        end, n);
     utcnow := fun _ => {| year := 2024; month := 5; day := 6;
                           hour := 7; minute := 8; second := 9 |};
     json_loads := fun text => assoc text documents;
     py_repr := fun _ => u "<repr>";
     float_repr := fun _ => u "<float>" |}.

(** The world before the program has done anything. *)
Definition start (R : Runtime) (n : Net) : world :=
  {| outside := n; http_log := []; stdout := []; stderr := [];
     dirs := []; files := [] |}.

(** The fields of a package record that its descriptor [d] lacks have
    their defaults. *)
Definition package_defaults (d : list (str * pyval)) (r : package_record) : Prop :=
  (has_key d (u "name") = false -> name r = [])
  /\ (has_key d (u "package_type") = false -> package_type r = PStr (u "maven"))
  /\ (has_key d (u "html_url") = false -> html_url r = PStr [])
  /\ (has_key d (u "created_at") = false -> created_at r = PStr [])
  /\ (has_key d (u "updated_at") = false -> updated_at r = PStr []).

Definition version_defaults (dv : list (str * pyval)) (v : version_record) : Prop :=
  (has_key dv (u "name") = false -> v_name v = PStr [])
  /\ (has_key dv (u "created_at") = false -> v_created_at v = PStr [])
  /\ (has_key dv (u "updated_at") = false -> v_updated_at v = PStr [])
  /\ (has_key dv (u "html_url") = false -> v_html_url v = PStr []).

(** *** The account acme

    Two packages are listed, b-lib before a-lib, each descriptor with a
    name only.  The versions of b-lib are a list of one; the request for
    the versions of a-lib is answered with status 200 and an object. *)
Definition listing_text : list string :=
  ["[{"; "name"; ": "; "b-lib"; "}, {"; "name"; ": "; "a-lib"; "}]"].

Definition b_lib_versions_text : list string :=
  ["[{"; "name"; ": "; "1.0.0"; "}]"].

Definition not_found_text : list string :=
  ["{"; "message"; ": "; "Not Found"; "}"].

Definition a_lib_descriptor : list (str * pyval) := [(u "name", PStr (u "a-lib"))].

Definition acme : Runtime :=
  table_runtime
    [ (packages_url (u "acme"), Resp (bq listing_text));
      (versions_url (u "acme") (u "b-lib"), Resp (bq b_lib_versions_text));
      (versions_url (u "acme") (u "a-lib"), Resp (bq not_found_text)) ]
    [ (q listing_text,
       PList [PDict [(u "name", PStr (u "b-lib"))]; PDict a_lib_descriptor]);
      (q b_lib_versions_text, PList [PDict [(u "name", PStr (u "1.0.0"))]]);
      (q not_found_text, PDict [(u "message", PStr (u "Not Found"))]) ].

Definition a_lib : package_record :=
  {| name := u "a-lib"; package_type := PStr (u "maven"); html_url := PStr [];
     created_at := PStr []; updated_at := PStr []; versions := [] |}.

Definition b_lib : package_record :=
  {| name := u "b-lib"; package_type := PStr (u "maven"); html_url := PStr [];
     created_at := PStr []; updated_at := PStr [];
     versions := [ {| v_name := PStr (u "1.0.0"); v_created_at := PStr [];
                      v_updated_at := PStr []; v_html_url := PStr [] |} ] |}.

Definition acme_fetch : result (list package_record) * world :=
  fetch_packages (R := acme) (u "acme") (u "t") (start acme tt).

(** *** Other outcomes of the listing request

    The token is refused with status 401 and a JSON body; a gateway
    answers with status 502 and a body that is not UTF-8; the host cannot
    be reached at all. *)
Definition bad_credentials_text : list string :=
  ["{"; "message"; ": "; "Bad credentials"; "}"].

Definition acme_denied : Runtime :=
  table_runtime [ (packages_url (u "acme"), HTTPErr 401 (bq bad_credentials_text)) ] [].

Definition acme_garbled : Runtime :=
  table_runtime [ (packages_url (u "acme"), HTTPErr 502 [Byte.xff]) ] [].

Definition acme_down : Runtime := table_runtime [] [].

(** *** Package records given to [generate_html] *)

Definition release (v : string) : version_record :=
  {| v_name := PStr (u v); v_created_at := PStr []; v_updated_at := PStr [];
     v_html_url := PStr [] |}.

Definition two_packages : list package_record :=
  [ {| name := u "a-lib"; package_type := PStr (u "maven"); html_url := PStr [];
       created_at := PStr []; updated_at := PStr [];
       versions := [release "2.0.0-SNAPSHOT"; release "1.0.0"] |};
    b_lib ].

Definition script_package : package_record :=
  {| name := u "</script>"; package_type := PStr (u "maven"); html_url := PStr [];
     created_at := PStr []; updated_at := PStr []; versions := [] |}.

(** *** Reading a JSON string back

    The inverse of [escape_char], used to show that the encoding loses
    nothing: the first character of an encoded text and what follows it. *)
Definition unhex (x : N) : N := if x <? 58 then x - 48 else x - 87.

Definition unescape_one (t : str) : option (N * str) :=
  match t with
  | [] => None
  | c :: r =>
    if c =? 34 then None
    else if c =? 92 then
      match r with
      | [] => None
      | k :: r1 =>
        if k =? 92 then Some (92, r1)
        else if k =? 34 then Some (34, r1)
        else if k =? 98 then Some (8, r1)
        else if k =? 102 then Some (12, r1)
        else if k =? 110 then Some (10, r1)
        else if k =? 114 then Some (13, r1)
        else if k =? 116 then Some (9, r1)
        else if k =? 117 then
          match r1 with
          | _ :: _ :: h1 :: h2 :: r2 => Some (unhex h1 * 16 + unhex h2, r2)
          | _ => None
          end
        else None
      end
    else Some (c, r)
  end.

(** The characters up to the closing double quote, and what follows it. *)
Fixpoint read_body (fuel : nat) (t : str) : option (str * str) :=
  match fuel with
  | O => None
  | S fuel' =>
    match t with
    | [] => None
    | c :: r =>
      if c =? 34 then Some ([], r)
      else
        match unescape_one t with
        | None => None
        | Some (x, r1) =>
          match read_body fuel' r1 with
          | None => None
          | Some (s, r2) => Some (x :: s, r2)
          end
        end
    end
  end.

(** An encoder whose output tells where it ends: no text is written for
    two different values, even when other text follows. *)
Definition self_delimiting {A} (f : A -> str) : Prop :=
  forall a b r1 r2, f a ++ r1 = f b ++ r2 -> a = b /\ r1 = r2.

Definition self_delimiting_on {A} (P : A -> Prop) (f : A -> str) : Prop :=
  forall a b r1 r2, P a -> P b -> f a ++ r1 = f b ++ r2 -> a = b /\ r1 = r2.

(** What follows the first item in the JSON text of a list: the other
    items, each after a comma and a space, and the closing bracket. *)
Fixpoint items_tail {A} (f : A -> str) (l : list A) : str :=
  match l with
  | [] => u "]"
  | x :: l' => u ", " ++ f x ++ items_tail f l'
  end.

(** The JSON text of a list, from the text of an item. *)
Definition json_list {A} (f : A -> str) (l : list A) : str :=
  u "[" ++ join (u ", ") (map f l) ++ u "]".

(** The number of slashes in a text. *)
Definition slashes (s : str) : nat := List.length (filter (N.eqb 47) s).

(** Records all of whose fields are strings, as the API sends them. *)
Definition string_version (v : version_record) : Prop :=
  exists n c p h,
    v = {| v_name := PStr n; v_created_at := PStr c;
           v_updated_at := PStr p; v_html_url := PStr h |}.

Definition string_fields (p : package_record) : Prop :=
  (exists t h c d,
     package_type p = PStr t /\ html_url p = PStr h
     /\ created_at p = PStr c /\ updated_at p = PStr d)
  /\ Forall string_version (versions p).

(** ** Notions used in the statements about whole runs *)

(** [l'] is [l] with more at its end. *)
Definition extends {A} (l l' : list A) : Prop := exists more, l' = l ++ more.

(** The encoded form of a package name in the URL of its versions. *)
Definition encoded_name (s : str) : str := replace_char 47 (u "%2F") s.

(** The line printed before the versions of a package are requested. *)
Definition progress_line (s : str) : str := u "  Fetching versions for: " ++ s.

Section RunNotions.

Context {R : Runtime}.

(** A computation that leaves directories and files alone and only adds
    to the two streams and to the exchanges. *)
Definition frame {A} (m : M world A) : Prop :=
  forall w,
    dirs (snd (m w)) = dirs w
    /\ files (snd (m w)) = files w
    /\ extends (stdout w) (stdout (snd (m w)))
    /\ extends (stderr w) (stderr (snd (m w)))
    /\ extends (http_log w) (http_log (snd (m w))).

(** The URLs of the exchanges made between two worlds. *)
Definition requested (w w' : world) (urls : list str) : Prop :=
  exists new,
    http_log w' = http_log w ++ new
    /\ map (fun x => req_url (fst x)) new = urls.



(** Two tokens that [urlopen] does not tell apart: whatever the URL and
    the state of the outside, the request ends in the same way with the
    one as with the other (this fails when only one of them can be sent
    as a header value). *)
Definition answered_alike (t1 t2 : str) : Prop :=
  forall url n,
    urlopen (api_request url t1) n = urlopen (api_request url t2) n.

End RunNotions.

(** A descriptor from which the loop body can build a record: a dict
    whose name, after the default, is a [str]. *)
Definition well_named (x : pyval) : bool :=
  match x with
  | PDict d =>
    match dict_get d (u "name") (PStr []) with
    | PStr _ => true
    | _ => false
    end
  | _ => false
  end.

Definition is_dict (x : pyval) : bool :=
  match x with
  | PDict _ => true
  | _ => false
  end.


(** *** More outcomes for the account acme

    The listing is answered with status 200 and an object; with status
    200 and a page of HTML; with a list whose second item is a number.
    The versions of a-lib are refused with status 404; or are a list of
    bare strings. *)
Definition acme_object : Runtime :=
  table_runtime
    [ (packages_url (u "acme"), Resp (bq not_found_text)) ]
    [ (q not_found_text, PDict [(u "message", PStr (u "Not Found"))]) ].

Definition acme_html : Runtime :=
  table_runtime [ (packages_url (u "acme"), Resp (bq ["<html></html>"])) ] [].

Definition mixed_listing_text : list string :=
  ["[{"; "name"; ": "; "b-lib"; "}, 7]"].

Definition acme_mixed : Runtime :=
  table_runtime
    [ (packages_url (u "acme"), Resp (bq mixed_listing_text));
      (versions_url (u "acme") (u "b-lib"), Resp (bq b_lib_versions_text)) ]
    [ (q mixed_listing_text, PList [PDict [(u "name", PStr (u "b-lib"))]; PInt 7]);
      (q b_lib_versions_text, PList [PDict [(u "name", PStr (u "1.0.0"))]]) ].

Definition acme_versions_denied : Runtime :=
  table_runtime
    [ (versions_url (u "acme") (u "a-lib"), HTTPErr 404 (bq not_found_text)) ] [].

Definition bare_versions_text : list string := ["["; "1.0.0"; "]"].

Definition acme_bare_versions : Runtime :=
  table_runtime
    [ (versions_url (u "acme") (u "a-lib"), Resp (bq bare_versions_text)) ]
    [ (q bare_versions_text, PList [PStr (u "1.0.0")]) ].

(** The listing of the account acme as [api_get] returns it, and the
    world after that call. *)
Definition acme_listing : list pyval :=
  [PDict [(u "name", PStr (u "b-lib"))]; PDict a_lib_descriptor].

Definition acme_listed : world :=
  snd (api_get (R := acme) (packages_url (u "acme")) (u "t") (start acme tt)).

(** *** Notions used in the amended statements *)

(** The exit status of the interpreter: 0 when the program runs to its
    end, the argument of [sys.exit] when it is called, and 1 after any
    other exception, which nothing in the program catches. *)
Definition exit_status {A} (r : result A) : Z :=
  match r with
  | Ok _ => 0
  | Raise (SystemExit c) => c
  | Raise _ => 1
  end.

(** The text has a less-than sign, the character that opens a tag. *)
Definition has_lt (s : str) : bool := existsb (N.eqb 60) s.

(** No string of the value, key or item, has a less-than sign. *)
Fixpoint lt_free (v : pyval) : bool :=
  match v with
  | PStr s => negb (has_lt s)
  | PList l => forallb lt_free l
  | PDict d =>
    forallb (fun kv => match kv with
                       | (k, x) => negb (has_lt k) && lt_free x
                       end) d
  | _ => true
  end.

(** No string of the package records has a less-than sign. *)
Definition lt_free_records (packages : list package_record) : bool :=
  lt_free (packages_to_py packages).

(** The size of a value, for induction. *)
Fixpoint pysize (v : pyval) : nat :=
  match v with
  | PList l => S (list_sum (map pysize l))
  | PDict d =>
    S (list_sum (map (fun kv => match kv with (_, x) => pysize x end) d))
  | _ => 1
  end.

(** A byte of a decimal numeral: a digit or the minus sign. *)
Definition decimal_byte (b : N) : bool :=
  ((48 <=? b) && (b <=? 57)) || (b =? 45).

(** A runtime that writes no float with a less-than sign (as Python
    writes none). *)
Definition floats_lt_free {R : Runtime} : Prop :=
  forall f, has_lt (float_repr f) = false.

(** The account acme with floats written as in Python. *)
Definition acme_floats : Runtime :=
  {| Net := unit;
     urlopen := urlopen (Runtime := acme);
     utcnow := utcnow (Runtime := acme);
     json_loads := json_loads (Runtime := acme);
     py_repr := py_repr (Runtime := acme);
     float_repr := fun _ => u "1.5" |}.

(** *** Answers for the versions of a-lib that are no JSON; a listing
    with two items of one name

    The request for the versions of a-lib is answered with status 200
    and a page of HTML.  In the listing of the twins, two items are named
    lib, with different links, and the item between them is named a. *)
Definition acme_html_versions : Runtime :=
  table_runtime
    [ (versions_url (u "acme") (u "a-lib"), Resp (bq ["<html></html>"])) ] [].

Definition twins_text : list string :=
  ["[{"; "name"; ": "; "lib"; ", "; "html_url"; ": "; "first"; "}, {";
   "name"; ": "; "a"; "}, {";
   "name"; ": "; "lib"; ", "; "html_url"; ": "; "second"; "}]"].

Definition twins_listing : list pyval :=
  [ PDict [(u "name", PStr (u "lib")); (u "html_url", PStr (u "first"))];
    PDict [(u "name", PStr (u "a"))];
    PDict [(u "name", PStr (u "lib")); (u "html_url", PStr (u "second"))] ].

Definition acme_twins : Runtime :=
  table_runtime
    [ (packages_url (u "acme"), Resp (bq twins_text));
      (versions_url (u "acme") (u "lib"), Resp (bq ["[]"]));
      (versions_url (u "acme") (u "a"), Resp (bq ["[]"])) ]
    [ (q twins_text, PList twins_listing);
      (q ["[]"], PList []) ].

Definition twin (link : string) : package_record :=
  {| name := u "lib"; package_type := PStr (u "maven"); html_url := PStr (u link);
     created_at := PStr []; updated_at := PStr []; versions := [] |}.

Definition between_twins : package_record :=
  {| name := u "a"; package_type := PStr (u "maven"); html_url := PStr [];
     created_at := PStr []; updated_at := PStr []; versions := [] |}.

(** The account acme behind a client that, like [http.client], refuses
    to send a header value with a character outside Latin-1. *)
Definition acme_latin1 : Runtime :=
  {| Net := unit;
     urlopen := fun req n =>
       if existsb (fun h => existsb (fun c => 256 <=? c) (snd h)) (req_headers req)
       then (NotSent NotEncodable, n)
       else urlopen (Runtime := acme) req n;
     utcnow := utcnow (Runtime := acme);
     json_loads := json_loads (Runtime := acme);
     py_repr := py_repr (Runtime := acme);
     float_repr := float_repr (Runtime := acme) |}.

(** ** Strings *)

Example u_ascii : u "a/b" = [97; 47; 98].
Proof. reflexivity. Qed.

Example u_multibyte : u "é→📦" = [233; 8594; 128230].
Proof. reflexivity. Qed.

Example q_pieces : q ["a"; "b"; "c"] = [97; 34; 98; 34; 99].
Proof. reflexivity. Qed.

Example decode_lone_ff : decode [Byte.xff] = None.
Proof. reflexivity. Qed.

Example decode_overlong : decode [Byte.xc0; Byte.x80] = None.
Proof. reflexivity. Qed.

Example decode_surrogate : decode [Byte.xed; Byte.xa0; Byte.x80] = None.
Proof. reflexivity. Qed.

Example str_of_Z_404 : str_of_Z 404 = u "404" /\ str_of_Z 0 = u "0" /\ str_of_Z (-7) = u "-7".
Proof. repeat split; reflexivity. Qed.

Example contains_ex :
  contains (u "packages") (u "https://h/users/o/packages?x") = true
  /\ contains (u "versions") (u "https://h/users/o/packages?x") = false.
Proof. split; reflexivity. Qed.

Example str_ltb_case : str_ltb (u "B") (u "a") = true /\ str_ltb (u "a") (u "B") = false
  /\ str_ltb (u "ab") (u "abc") = true /\ str_ltb (u "ab") (u "ab") = false.
Proof. repeat split; reflexivity. Qed.

Arguments u : simpl never.
Arguments q : simpl never.
Arguments str_of_Z : simpl never.

(** ** The result monad *)

Section MonadFacts.

Context {W A B : Type}.

Lemma bind_ok (m : M W A) (k : A -> M W B) w a w1 :
  m w = (Ok a, w1) -> bind m k w = k a w1.
Proof. intros H. unfold bind. now rewrite H. Qed.

Lemma bind_raise (m : M W A) (k : A -> M W B) w e w1 :
  m w = (Raise e, w1) -> bind m k w = (Raise e, w1).
Proof. intros H. unfold bind. now rewrite H. Qed.

Lemma bind_ok_inv (m : M W A) (k : A -> M W B) w b w' :
  bind m k w = (Ok b, w') ->
  exists a w1, m w = (Ok a, w1) /\ k a w1 = (Ok b, w').
Proof.
  unfold bind. destruct (m w) as [[a|e] w1]; intros H.
  - now exists a, w1.
  - discriminate.
Qed.

Lemma bind_cases (m : M W A) (k : A -> M W B) w r w' :
  bind m k w = (r, w') ->
  (exists a w1, m w = (Ok a, w1) /\ k a w1 = (r, w'))
  \/ (exists e, m w = (Raise e, w') /\ r = Raise e).
Proof.
  unfold bind. destruct (m w) as [[a|e] w1]; intros H.
  - left. now exists a, w1.
  - right. exists e. now inversion H.
Qed.

End MonadFacts.

Section ApiGet.

Context {R : Runtime}.

Lemma api_get_unfold url token w :
  api_get url token w =
  let (out, n) := urlopen (api_request url token) (outside w) in
  let w1 := exchanged (api_request url token) out n w in
  match out with
  | Resp body =>
    match decode body with
    | None => (Raise UnicodeDecodeError, w1)
    | Some text =>
      match json_loads text with
      | None => (Raise JSONDecodeError, w1)
      | Some v => (Ok v, w1)
      end
    end
  | HTTPErr code body =>
    match decode body with
    | None => (Raise UnicodeDecodeError, w1)
    | Some text =>
      (Ok (empty_default url),
       printed_err (u "API error " ++ str_of_Z code ++ u " for " ++ url
                    ++ u ": " ++ text) w1)
    end
  | ConnErr reason => (Raise (URLError reason), w1)
  | NotSent why => (Raise (unsendable_exn why), w1)
  | BrokenOff how => (Raise (break_exn how), w1)
  end.
Proof.
  unfold api_get, bind, do_urlopen.
  destruct (urlopen (api_request url token) (outside w)) as [out n].
  destruct out as [body|code body|reason|why|how]; [| |reflexivity..].
  - destruct (decode body) as [text|]; [|reflexivity].
    cbn [or_raise ret]. now destruct (json_loads text).
  - now destruct (decode body) as [text|].
Qed.

Lemma empty_default_cases url :
  empty_default url = PList [] \/ empty_default url = PDict [].
Proof.
  unfold empty_default.
  destruct (contains (u "versions") url || contains (u "packages") url); auto.
Qed.

(** C6, as amended: when a request ends in an HTTP status error and the
    body of the error response is valid UTF-8, [api_get] does not raise:
    it writes one line to the error stream, made of the status code, the
    requested URL and the decoded body, and returns an empty collection
    (the empty list or the empty dict). *)
Theorem api_get_http_error url token w code body n text :
  urlopen (api_request url token) (outside w) = (HTTPErr code body, n) ->
  decode body = Some text ->
  api_get url token w =
    (Ok (empty_default url),
     printed_err (u "API error " ++ str_of_Z code ++ u " for " ++ url
                  ++ u ": " ++ text)
       (exchanged (api_request url token) (HTTPErr code body) n w))
  /\ (empty_default url = PList [] \/ empty_default url = PDict []).
Proof.
  intros Hout Hdec. split.
  - rewrite api_get_unfold, Hout. cbn zeta. now rewrite Hdec.
  - apply empty_default_cases.
Qed.

End ApiGet.

(** ** The order of [str] and the sort *)

Lemma str_ltb_true_le a : forall b, str_ltb a b = true -> lex_le a b.
Proof.
  induction a as [|x a IH]; intros [|y b] H; cbn in H; try discriminate.
  - constructor.
  - apply orb_true_iff in H as [H|H].
    + apply lex_le_lt. now apply N.ltb_lt.
    + apply andb_true_iff in H as [E H]. apply N.eqb_eq in E. subst y.
      apply lex_le_eq. now apply IH.
Qed.

Lemma str_ltb_false_le a : forall b, str_ltb a b = false -> lex_le b a.
Proof.
  induction a as [|x a IH]; intros [|y b] H; cbn in H.
  - constructor.
  - discriminate.
  - constructor.
  - apply orb_false_iff in H as [H1 H2]. apply N.ltb_ge in H1.
    destruct (N.eqb_spec x y) as [->|Hne].
    + apply lex_le_eq. now apply IH.
    + apply lex_le_lt. lia.
Qed.

Lemma lex_le_refl a : lex_le a a.
Proof. induction a; now constructor. Qed.

Lemma lex_le_trans a b c : lex_le a b -> lex_le b c -> lex_le a c.
Proof.
  intros Hab. revert c.
  induction Hab as [b|x y a b Hxy|x a b Hab IH]; intros c Hbc.
  - constructor.
  - inversion Hbc; subst.
    + apply lex_le_lt. lia.
    + now apply lex_le_lt.
  - inversion Hbc; subst.
    + now apply lex_le_lt.
    + apply lex_le_eq. now apply IH.
Qed.

Lemma lex_le_antisym a b : lex_le a b -> lex_le b a -> a = b.
Proof.
  intros Hab. induction Hab as [b|x y a b Hxy|x a b Hab IH]; intros Hba.
  - now inversion Hba.
  - inversion Hba; subst; lia.
  - inversion Hba; subst; [lia|]. f_equal. now apply IH.
Qed.

Lemma name_le_trans p r s : name_le p r -> name_le r s -> name_le p s.
Proof. unfold name_le. apply lex_le_trans. Qed.

Lemma insert_by_name_perm p l : Permutation (p :: l) (insert_by_name p l).
Proof.
  induction l as [|x l IH]; cbn.
  - apply Permutation_refl.
  - destruct (str_ltb (name x) (name p)).
    + eapply Permutation_trans; [apply perm_swap|]. now apply perm_skip.
    + apply Permutation_refl.
Qed.

Lemma sort_by_name_perm l : Permutation l (sort_by_name l).
Proof.
  induction l as [|p l IH]; cbn.
  - apply Permutation_refl.
  - eapply Permutation_trans; [|apply insert_by_name_perm]. now apply perm_skip.
Qed.

Lemma insert_by_name_sorted p l :
  StronglySorted name_le l -> StronglySorted name_le (insert_by_name p l).
Proof.
  induction l as [|x l IH]; intros Hs; cbn.
  - constructor; constructor.
  - inversion Hs as [|? ? Hl Hx]; subst.
    destruct (str_ltb (name x) (name p)) eqn:E.
    + constructor; [now apply IH|].
      eapply Permutation_Forall; [apply insert_by_name_perm|].
      constructor; [|assumption]. now apply str_ltb_true_le.
    + assert (Hpx : name_le p x) by now apply str_ltb_false_le.
      constructor; [assumption|]. constructor; [assumption|].
      eapply Forall_impl; [|exact Hx]. intros y Hy.
      now apply name_le_trans with x.
Qed.

Lemma sort_by_name_sorted l : StronglySorted name_le (sort_by_name l).
Proof.
  induction l as [|p l IH]; cbn.
  - constructor.
  - now apply insert_by_name_sorted.
Qed.

(** The sort is stable: the records of any one name keep their order. *)
Lemma insert_by_name_stable k p l :
  StronglySorted name_le l ->
  filter (fun r => str_eqb (name r) k) (insert_by_name p l)
  = filter (fun r => str_eqb (name r) k) (p :: l).
Proof.
  induction l as [|x l IH]; intros Hs; [reflexivity|].
  inversion Hs as [|? ? Hl Hx]; subst. cbn [insert_by_name].
  destruct (str_ltb (name x) (name p)) eqn:E; [|reflexivity].
  cbn [filter]. rewrite IH by assumption. cbn [filter].
  destruct (str_eqb (name p) k) eqn:Ep, (str_eqb (name x) k) eqn:Ex;
    try reflexivity.
  exfalso.
  assert (Heq : forall a b, str_eqb a b = true -> a = b).
  { clear. induction a as [|c a IH]; intros [|d b] H; cbn in H;
      try discriminate; [reflexivity|].
    apply andb_true_iff in H as [H1 H2]. apply N.eqb_eq in H1.
    f_equal; auto. }
  apply Heq in Ep, Ex. rewrite Ep, Ex in E.
  clear - E. induction k as [|c k IH]; cbn in E; [discriminate|].
  rewrite N.ltb_irrefl, N.eqb_refl in E. cbn in E. auto.
Qed.

Lemma sort_by_name_stable k l :
  filter (fun r => str_eqb (name r) k) (sort_by_name l)
  = filter (fun r => str_eqb (name r) k) l.
Proof.
  induction l as [|p l IH]; [reflexivity|].
  cbn [sort_by_name fold_right]. fold (sort_by_name l).
  rewrite insert_by_name_stable by apply sort_by_name_sorted.
  cbn [filter]. now rewrite IH.
Qed.

(** ** [fetch_packages] *)

Lemma dict_get_missing d k dflt :
  has_key d k = false -> dict_get d k dflt = dflt.
Proof.
  induction d as [|[k' v] d IH]; cbn; [reflexivity|].
  intros H. apply orb_false_iff in H as [H1 H2]. rewrite H1. now apply IH.
Qed.

Lemma comprehension_ok {A B} (f : A -> result B) l :
  forall ys, comprehension f l = Ok ys ->
  forall y, In y ys -> exists x, In x l /\ f x = Ok y.
Proof.
  induction l as [|x l IH]; cbn; intros ys H y Hy.
  - inversion H; subst. destruct Hy.
  - destruct (f x) as [y0|e] eqn:Hx; [|discriminate].
    destruct (comprehension f l) as [ys0|e]; [|discriminate].
    inversion H; subst. destruct Hy as [<-|Hy].
    + exists x. auto.
    + destruct (IH ys0 eq_refl y Hy) as [x' [Hin Hf]]. exists x'. auto.
Qed.

Lemma version_record_of_dict dv :
  version_record_of (PDict dv) =
  Ok {| v_name := dict_get dv (u "name") (PStr []);
        v_created_at := dict_get dv (u "created_at") (PStr []);
        v_updated_at := dict_get dv (u "updated_at") (PStr []);
        v_html_url := dict_get dv (u "html_url") (PStr []) |}.
Proof. reflexivity. Qed.

Lemma version_record_of_ok x v :
  version_record_of x = Ok v -> exists dv, x = PDict dv.
Proof. destruct x; cbn; intros H; try discriminate. now exists d. Qed.

Section Fetch.

Context {R : Runtime}.

Lemma for_each_ok {A B} (body : A -> M world B) l :
  forall w ys w', for_each body l w = (Ok ys, w') ->
  forall y, In y ys ->
  exists x w1 w2, In x l /\ body x w1 = (Ok y, w2).
Proof.
  induction l as [|x l IH]; cbn [for_each]; intros w ys w' H y Hy.
  - inversion H; subst. destruct Hy.
  - apply bind_ok_inv in H as (y0 & w1 & Hx & H).
    apply bind_ok_inv in H as (ys0 & w2 & Hl & H).
    inversion H; subst. destruct Hy as [<-|Hy].
    + exists x, w, w1. cbn. auto.
    + destruct (IH _ _ _ Hl y Hy) as (x' & wa & wb & Hin & Hb).
      exists x', wa, wb. cbn. auto.
Qed.

(** What a completed pass through the loop body has done. *)
Lemma fetch_packages_body_ok owner token pkg w r w' :
  fetch_packages_body owner token pkg w = (Ok r, w') ->
  exists d vresp,
    pkg = PDict d
    /\ dict_get d (u "name") (PStr []) = PStr (name r)
    /\ api_get (versions_url owner (replace_char 47 (u "%2F") (name r))) token
         (printed (u "  Fetching versions for: " ++ name r) w) = (Ok vresp, w')
    /\ comprehension version_record_of
         (match vresp with PList l => l | _ => [] end) = Ok (versions r)
    /\ package_type r = dict_get d (u "package_type") (PStr (u "maven"))
    /\ html_url r = dict_get d (u "html_url") (PStr [])
    /\ created_at r = dict_get d (u "created_at") (PStr [])
    /\ updated_at r = dict_get d (u "updated_at") (PStr []).
Proof.
  unfold fetch_packages_body. destruct pkg as [| | | | |l|d]; try discriminate.
  intros H. unfold bind at 1, print in H.
  destruct (dict_get d (u "name") (PStr [])) as [| | | |s| |] eqn:Hn;
    try discriminate.
  apply bind_ok_inv in H as (vresp & w1 & Hv & H).
  apply bind_ok_inv in H as (vs & w2 & Hc & H).
  unfold lift in Hc. inversion Hc; subst. inversion H; subst. cbn.
  exists d, vresp. repeat split; assumption.
Qed.

Lemma fetch_packages_ok owner token w result_ w' :
  fetch_packages owner token w = (Ok result_, w') ->
  result_ = [] \/
  exists descs w1 rs,
    api_get (packages_url owner) token w = (Ok (PList descs), w1)
    /\ for_each (fetch_packages_body owner token) descs w1 = (Ok rs, w')
    /\ result_ = sort_by_name rs.
Proof.
  unfold fetch_packages. intros H.
  apply bind_ok_inv in H as (packages & w1 & Hp & H).
  destruct packages as [| | | | |descs|d];
    try (left; unfold bind, print_stderr, ret in H; now inversion H).
  right. apply bind_ok_inv in H as (rs & w2 & Hl & H).
  inversion H; subst. now exists descs, w1, rs.
Qed.

(** C3: the list of package records that [fetch_packages] returns is in
    ascending order of the names: each record's name is below or equal to,
    code point by code point, the name of every record after it. *)
Theorem fetch_packages_sorted owner token w result_ w' :
  fetch_packages owner token w = (Ok result_, w') ->
  StronglySorted name_le result_.
Proof.
  intros H. apply fetch_packages_ok in H as [->|(descs & w1 & rs & _ & _ & ->)].
  - constructor.
  - apply sort_by_name_sorted.
Qed.

End Fetch.

Section FetchFields.

Context {R : Runtime}.

Lemma name_of_missing d s :
  dict_get d (u "name") (PStr []) = PStr s ->
  has_key d (u "name") = false -> s = [].
Proof.
  intros Hn Hk. rewrite dict_get_missing in Hn by assumption.
  now inversion Hn.
Qed.

Lemma comprehension_forall2 {A B} (f : A -> result B) l :
  forall ys, comprehension f l = Ok ys -> Forall2 (fun x y => f x = Ok y) l ys.
Proof.
  induction l as [|x l IH]; cbn; intros ys H.
  - inversion H. constructor.
  - destruct (f x) as [y|e] eqn:Hx; [|discriminate].
    destruct (comprehension f l) as [ys0|e]; [|discriminate].
    inversion H; subst. constructor; auto.
Qed.

(** C4, as amended: every record in the result of [fetch_packages] was
    built by the loop body from a descriptor [d] of the listing, and each
    field that [d] lacks has its default: the empty string for the name,
    the web link and the two timestamps, and the string maven for the
    package type.  The version records of the package were built, one
    for one and in order, from the items of the answer to the request
    for its versions; each item is a dict [dv], and each of the four
    fields that [dv] lacks is the empty string in its record. *)
Theorem fetch_packages_defaults owner token w result_ w' :
  fetch_packages owner token w = (Ok result_, w') ->
  forall r, In r result_ ->
  exists descs d w0 w1 w2 vresp,
    api_get (packages_url owner) token w = (Ok (PList descs), w0)
    /\ In (PDict d) descs
    /\ fetch_packages_body owner token (PDict d) w1 = (Ok r, w2)
    /\ package_defaults d r
    /\ api_get (versions_url owner (replace_char 47 (u "%2F") (name r))) token
         (printed (u "  Fetching versions for: " ++ name r) w1) = (Ok vresp, w2)
    /\ Forall2 (fun x v =>
                  exists dv, x = PDict dv
                             /\ version_record_of (PDict dv) = Ok v
                             /\ version_defaults dv v)
         (match vresp with PList l => l | _ => [] end) (versions r).
Proof.
  intros H r Hr.
  apply fetch_packages_ok in H as [->|(descs & w0 & rs & Hp & Hl & ->)];
    [destruct Hr|].
  apply (Permutation_in _ (Permutation_sym (sort_by_name_perm rs))) in Hr.
  destruct (for_each_ok _ _ _ _ _ Hl r Hr) as (pkg & w1 & w2 & Hin & Hb).
  destruct (fetch_packages_body_ok _ _ _ _ _ _ Hb)
    as (d & vresp & -> & Hn & Hv & Hc & Ht & Hu & Hca & Hua).
  exists descs, d, w0, w1, w2, vresp.
  split; [assumption|]. split; [assumption|]. split; [assumption|].
  split; [|split; [assumption|]].
  - repeat split; intros Hk.
    + now apply (name_of_missing d).
    + rewrite Ht. now apply dict_get_missing.
    + rewrite Hu. now apply dict_get_missing.
    + rewrite Hca. now apply dict_get_missing.
    + rewrite Hua. now apply dict_get_missing.
  - apply comprehension_forall2 in Hc.
    eapply Forall2_impl; [|exact Hc]. cbn beta. intros x v Hx.
    destruct (version_record_of_ok _ _ Hx) as [dv ->].
    exists dv. split; [reflexivity|]. split; [assumption|].
    rewrite version_record_of_dict in Hx. inversion Hx; subst.
    repeat split; intros Hk; now apply dict_get_missing.
Qed.

(** C5, as amended: when the request for the versions of a package is
    answered with a 2xx status and a body that is the UTF-8 text of a
    JSON value that is not a list, the loop body of [fetch_packages]
    builds the record of that package with an empty list of versions,
    does not raise, and writes nothing to the error stream. *)
Theorem nonlist_versions_fallback owner token d s w body n text v :
  dict_get d (u "name") (PStr []) = PStr s ->
  urlopen (api_request (versions_url owner (replace_char 47 (u "%2F") s)) token)
    (outside w) = (Resp body, n) ->
  decode body = Some text ->
  json_loads text = Some v ->
  is_list v = false ->
  exists r w',
    fetch_packages_body owner token (PDict d) w = (Ok r, w')
    /\ name r = s
    /\ versions r = []
    /\ stderr w' = stderr w.
Proof.
  intros Hn Hout Hdec Hjs Hv.
  unfold fetch_packages_body. rewrite Hn.
  unfold bind at 1, print.
  erewrite bind_ok.
  2:{ rewrite api_get_unfold. cbn [outside printed]. rewrite Hout.
      cbn zeta. rewrite Hdec, Hjs. reflexivity. }
  destruct v; try discriminate;
    (do 2 eexists; split; [reflexivity|]; cbn; auto).
Qed.

End FetchFields.

(** ** The page is never produced *)

Section Run.

Context {R : Runtime}.

(** The sixth replacement field of the f-string is [pkg_count], after
    [owner], [repo], [owner], [repo] and [build_time]; it is no local
    variable of [generate_html], so evaluating the f-string raises
    [NameError] before [format] is ever called. *)
Lemma generate_html_raises packages owner repo commit_sha w :
  generate_html packages owner repo commit_sha w
  = (Raise (NameError "pkg_count"), w).
Proof. reflexivity. Qed.

Lemma quiet_here {A} (m : M world A) :
  (forall w, exists r w',
      m w = (r, w') /\ files w' = files w /\ http_log w' = http_log w
      /\ requested_exit r = None) ->
  quiet m.
Proof.
  intros H w r w' Hm. destruct (H w) as (r0 & w0 & E & Hf & Hl & Hx).
  rewrite E in Hm. inversion Hm; subst. repeat split; try assumption.
  exists []. rewrite app_nil_r. split; [assumption|]. intros ? ? [].
Qed.

Lemma quiet_ret {A} (a : A) : quiet (ret a).
Proof. apply quiet_here. intros w. now exists (Ok a), w. Qed.

Lemma quiet_print line : quiet (print line).
Proof. apply quiet_here. intros w. now exists (Ok tt), (printed line w). Qed.

Lemma quiet_print_stderr line : quiet (print_stderr line).
Proof. apply quiet_here. intros w. now exists (Ok tt), (printed_err line w). Qed.

Lemma quiet_lift {A} (r : result A) : requested_exit r = None -> quiet (lift r).
Proof. intros H. apply quiet_here. intros w. now exists r, w. Qed.

Lemma quiet_bind {A B} (m : M world A) (k : A -> M world B) :
  quiet m -> (forall a, quiet (k a)) -> quiet (bind m k).
Proof.
  intros Hm Hk w r w' H.
  apply bind_cases in H as [(a & w1 & H1 & H2)|(e & H1 & ->)].
  - destruct (Hm _ _ _ H1) as (Hf1 & _ & new1 & Hl1 & Hc1).
    destruct (Hk a _ _ _ H2) as (Hf2 & Hx2 & new2 & Hl2 & Hc2).
    split; [congruence|]. split; [assumption|].
    exists (new1 ++ new2). split.
    + rewrite Hl2, Hl1. now rewrite app_assoc.
    + intros req reason Hin. apply in_app_or in Hin as [Hin|Hin].
      * specialize (Hc1 _ _ Hin). discriminate.
      * now apply Hc2 with req.
  - destruct (Hm _ _ _ H1) as (Hf1 & Hx1 & new1 & Hl1 & Hc1).
    split; [assumption|]. split; [exact Hx1|].
    exists new1. split; [assumption|]. intros req reason Hin.
    specialize (Hc1 _ _ Hin). now inversion Hc1.
Qed.

Lemma quiet_api_get url token : quiet (api_get url token).
Proof.
  intros w r w' H. rewrite api_get_unfold in H.
  destruct (urlopen (api_request url token) (outside w)) as [out n].
  assert (Hone : forall w1 : world,
            http_log w1 = http_log w ++ [(api_request url token, out)] ->
            (forall reason, out = ConnErr reason -> r = Raise (URLError reason)) ->
            exists new, http_log w1 = http_log w ++ new
              /\ forall req reason,
                   In (req, ConnErr reason) new -> r = Raise (URLError reason)).
  { intros w1 Hl Hc. eexists. split; [exact Hl|].
    intros req reason [E|[]]. inversion E; subst. now apply Hc. }
  destruct out as [body|code body|reason|why|how]; cbn zeta in H.
  - destruct (decode body) as [text|]; [destruct (json_loads text)|];
      inversion H; subst;
      (split; [reflexivity|]; split; [reflexivity|];
       apply Hone; [reflexivity|discriminate]).
  - destruct (decode body) as [text|];
      inversion H; subst;
      (split; [reflexivity|]; split; [reflexivity|];
       apply Hone; [reflexivity|discriminate]).
  - inversion H; subst. split; [reflexivity|]. split; [reflexivity|].
    apply Hone; [reflexivity|]. intros ? E. now inversion E.
  - inversion H; subst. split; [reflexivity|]. split; [now destruct why|].
    apply Hone; [reflexivity|discriminate].
  - inversion H; subst. split; [reflexivity|]. split; [now destruct how|].
    apply Hone; [reflexivity|discriminate].
Qed.

Lemma comprehension_no_exit l :
  requested_exit (comprehension version_record_of l) = None.
Proof.
  induction l as [|x l IH]; [reflexivity|]. cbn [comprehension].
  destruct x; try reflexivity. rewrite version_record_of_dict.
  now destruct (comprehension version_record_of l).
Qed.

Lemma quiet_raise {A} e :
  requested_exit (@Raise A e) = None -> quiet (@raise world A e).
Proof. intros H. apply quiet_here. intros w. now exists (Raise e), w. Qed.

Lemma quiet_fetch_packages_body owner token pkg :
  quiet (fetch_packages_body owner token pkg).
Proof.
  unfold fetch_packages_body.
  destruct pkg; try (now apply quiet_raise).
  apply quiet_bind; [apply quiet_print|]. intros _.
  destruct (dict_get d (u "name") (PStr [])); try (now apply quiet_raise).
  apply quiet_bind; [apply quiet_api_get|]. intros versions_.
  apply quiet_bind; [apply quiet_lift, comprehension_no_exit|]. intros vs.
  apply quiet_ret.
Qed.

Lemma quiet_for_each {A B} (body : A -> M world B) l :
  (forall x, quiet (body x)) -> quiet (for_each body l).
Proof.
  intros Hb. induction l as [|x l IH]; cbn [for_each].
  - apply quiet_ret.
  - apply quiet_bind; [apply Hb|]. intros y.
    apply quiet_bind; [apply IH|]. intros ys. apply quiet_ret.
Qed.

Lemma quiet_fetch_packages owner token : quiet (fetch_packages owner token).
Proof.
  unfold fetch_packages. apply quiet_bind; [apply quiet_api_get|].
  intros packages.
  destruct packages;
    try (apply quiet_bind; [apply quiet_print_stderr|]; intros _; apply quiet_ret).
  apply quiet_bind; [|intros rs; apply quiet_ret].
  apply quiet_for_each. intros x. apply quiet_fetch_packages_body.
Qed.

Lemma quiet_generate_html_then {A} packages owner repo commit_sha
    (k : str -> M world A) :
  quiet (bind (generate_html packages owner repo commit_sha) k).
Proof.
  apply quiet_here. intros w.
  exists (Raise (NameError "pkg_count")), w.
  split; [|repeat split]. apply bind_raise, generate_html_raises.
Qed.

Lemma positional_lt argv :
  (List.length (positional argv) < 3)%nat <-> (List.length argv <? 4)%nat = true.
Proof.
  rewrite Nat.ltb_lt. unfold positional. destruct argv; cbn; lia.
Qed.

Lemma main_too_few argv w :
  (List.length argv <? 4)%nat = true ->
  main argv w = (Raise (SystemExit 1), printed usage w).
Proof. intros H. unfold main. now rewrite H. Qed.

Lemma quiet_main argv :
  (List.length argv <? 4)%nat = false -> quiet (main argv).
Proof.
  intros H. unfold main. rewrite H.
  apply quiet_bind; [apply quiet_print|]. intros _.
  apply quiet_bind; [apply quiet_fetch_packages|]. intros packages.
  apply quiet_bind; [apply quiet_print|]. intros _.
  apply quiet_generate_html_then.
Qed.

(** C7, as amended: with fewer than three arguments on the command
    line, [main] prints the usage line on the standard output and ends in
    [sys.exit(1)], so the exit status is 1; and whenever [main] ends in a
    call of [sys.exit], there were fewer than three arguments and the
    status is 1: that check is the only place where the program asks for
    an exit status.  It is not the only way to a non-zero status: with
    three arguments or more, an exception raised by [fetch_packages] is
    not caught, it ends the run, and the exit status is 1. *)
Theorem main_usage_exit (argv : list str) w :
  ((List.length (positional argv) < 3)%nat ->
     main argv w
     = (Raise (SystemExit 1),
        printed (u "Usage: python3 generate-index.py <owner> <repo> <token> [commit_sha]") w)
     /\ stdout (snd (main argv w))
        = stdout w
          ++ [u "Usage: python3 generate-index.py <owner> <repo> <token> [commit_sha]"]
     /\ exit_status (fst (main argv w)) = 1%Z)
  /\ (forall c, requested_exit (fst (main argv w)) = Some c ->
        (List.length (positional argv) < 3)%nat /\ c = 1%Z)
  /\ ((3 <= List.length (positional argv))%nat ->
      forall e w1,
        fetch_packages (nth 1 argv []) (nth 3 argv [])
          (printed (u "Fetching packages for " ++ nth 1 argv [] ++ u "/"
                    ++ nth 2 argv [] ++ u "...") w) = (Raise e, w1) ->
        main argv w = (Raise e, w1)
        /\ exit_status (fst (main argv w)) = 1%Z).
Proof.
  split; [|split].
  - intros H. apply positional_lt in H.
    rewrite (main_too_few _ _ H). repeat split.
  - intros c Hc. destruct (List.length argv <? 4)%nat eqn:E.
    + rewrite (main_too_few _ _ E) in Hc. cbn in Hc. inversion Hc.
      split; [now apply positional_lt|reflexivity].
    + destruct (main argv w) as [r w'] eqn:Hm.
      destruct (quiet_main argv E _ _ _ Hm) as (_ & Hx & _).
      cbn in Hc. congruence.
  - intros Hlen e w1 H.
    assert (E : (List.length argv <? 4)%nat = false).
    { destruct (List.length argv <? 4)%nat eqn:E; [|reflexivity].
      apply positional_lt in E. lia. }
    assert (Hm : main argv w = (Raise e, w1)).
    { unfold main. rewrite E. unfold bind at 1, print at 1.
      now rewrite (bind_raise _ _ _ _ _ H). }
    split; [exact Hm|]. rewrite Hm.
    destruct (quiet_fetch_packages _ _ _ _ _ H) as (_ & Hx & _).
    destruct e; cbn in *; try reflexivity. discriminate.
Qed.

(** C10: [api_get] absorbs HTTP status errors only.  A request that
    fails without an HTTP status is not absorbed: the [URLError] leaves
    [api_get], nothing is written to the error stream and no default is
    returned.  A value returned by [api_get] is either decoded from the
    body of a 2xx response or the default for an HTTP status error.  For
    the whole program: if any request made during a run of [main] failed
    without a status, the run ended in that [URLError] and wrote no file. *)
Theorem connection_failure_aborts :
  (forall url token w reason n,
     urlopen (api_request url token) (outside w) = (ConnErr reason, n) ->
     api_get url token w =
       (Raise (URLError reason),
        exchanged (api_request url token) (ConnErr reason) n w))
  /\ (forall url token w v w',
        api_get url token w = (Ok v, w') ->
        exists out n,
          urlopen (api_request url token) (outside w) = (out, n)
          /\ ((exists body text,
                 out = Resp body /\ decode body = Some text
                 /\ json_loads text = Some v)
              \/ (exists code body, out = HTTPErr code body /\ v = empty_default url)))
  /\ (forall argv w r w',
        main argv w = (r, w') ->
        exists new,
          http_log w' = http_log w ++ new
          /\ forall req reason,
               In (req, ConnErr reason) new ->
               r = Raise (URLError reason) /\ files w' = files w).
Proof.
  split; [|split].
  - intros url token w reason n H. rewrite api_get_unfold. now rewrite H.
  - intros url token w v w' H. rewrite api_get_unfold in H.
    destruct (urlopen (api_request url token) (outside w)) as [out n].
    exists out, n. split; [reflexivity|].
    destruct out as [body|code body|reason|why|how]; cbn zeta in H.
    + left. destruct (decode body) as [text|] eqn:Hd; [|discriminate].
      destruct (json_loads text) as [v0|] eqn:Hj; [|discriminate].
      inversion H; subst. exists body, text. auto.
    + right. destruct (decode body) as [text|] eqn:Hd; [|discriminate].
      inversion H; subst. exists code, body. auto.
    + discriminate.
    + discriminate.
    + discriminate.
  - intros argv w r w' H. destruct (List.length argv <? 4)%nat eqn:E.
    + rewrite (main_too_few _ _ E) in H. inversion H; subst.
      exists []. cbn. rewrite app_nil_r. split; [reflexivity|]. intros ? ? [].
    + destruct (quiet_main argv E _ _ _ H) as (Hf & _ & new & Hl & Hc).
      exists new. split; [assumption|]. intros req reason Hin.
      split; [now apply Hc with req|assumption].
Qed.

End Run.

(** ** The serialization of the package records *)

Lemma escape_char_plain c : plain_char c -> escape_char c = [c].
Proof.
  intros (H1 & H2 & H3). unfold escape_char.
  destruct (N.eqb_spec c 92); [contradiction|].
  destruct (N.eqb_spec c 34); [contradiction|].
  destruct (N.eqb_spec c 8); [lia|].
  destruct (N.eqb_spec c 12); [lia|].
  destruct (N.eqb_spec c 10); [lia|].
  destruct (N.eqb_spec c 13); [lia|].
  destruct (N.eqb_spec c 9); [lia|].
  destruct (N.ltb_spec c 32); [lia|reflexivity].
Qed.

Lemma encode_basestring_plain s :
  Forall plain_char s -> encode_basestring s = [34] ++ s ++ [34].
Proof.
  intros H. unfold encode_basestring. do 2 f_equal.
  induction H as [|c s Hc Hs IH]; [reflexivity|].
  cbn [flat_map]. now rewrite escape_char_plain, IH.
Qed.

Lemma occurs_in_refl s : occurs_in s s.
Proof. exists [], []. now rewrite app_nil_r. Qed.

Lemma occurs_in_app_l s a b : occurs_in s a -> occurs_in s (a ++ b).
Proof.
  intros (pre & post & ->). exists pre, (post ++ b).
  now rewrite <- !app_assoc.
Qed.

Lemma occurs_in_app_r s a b : occurs_in s b -> occurs_in s (a ++ b).
Proof.
  intros (pre & post & ->). exists (a ++ pre), post.
  now rewrite <- !app_assoc.
Qed.

Lemma occurs_in_trans s t v : occurs_in s t -> occurs_in t v -> occurs_in s v.
Proof.
  intros Hst (pre & post & ->).
  now apply occurs_in_app_r, occurs_in_app_l.
Qed.

Lemma occurs_in_join sep x l : In x l -> occurs_in x (join sep l).
Proof.
  induction l as [|y l IH]; intros Hin; [destruct Hin|].
  destruct l as [|z l].
  - destruct Hin as [->|[]]. apply occurs_in_refl.
  - change (join sep (y :: z :: l)) with (y ++ sep ++ join sep (z :: l)).
    destruct Hin as [->|Hin].
    + apply occurs_in_app_l, occurs_in_refl.
    + now apply occurs_in_app_r, occurs_in_app_r, IH.
Qed.

Lemma contains_occurs needle hay :
  contains needle hay = true -> occurs_in needle hay.
Proof.
  assert (Hp : forall p s, is_prefix p s = true -> exists post, s = p ++ post).
  { induction p as [|x p IH]; intros s H; [now exists s|].
    destruct s as [|y s]; [discriminate|]. cbn in H.
    apply andb_true_iff in H as [E H]. apply N.eqb_eq in E. subst y.
    destruct (IH s H) as [post ->]. now exists post. }
  induction hay as [|c hay IH]; cbn [contains]; intros H.
  - rewrite orb_false_r in H. destruct (Hp _ _ H) as [post ->].
    now exists [], post.
  - apply orb_true_iff in H as [H|H].
    + destruct (Hp _ _ H) as [post ->]. now exists [], post.
    + destruct (IH H) as (pre & post & ->). now exists (c :: pre), post.
Qed.

Section Serialization.

Context {R : Runtime}.

Lemma name_in_package_json p :
  occurs_in (encode_basestring (name p)) (json_dumps (package_to_py p)).
Proof.
  exists (u "{" ++ encode_basestring (u "name") ++ u ": ").
  eexists. unfold package_to_py. cbn [json_dumps map join].
  rewrite <- !app_assoc. reflexivity.
Qed.

(** A name made of characters that need no escape stands in the
    serialization unchanged, between two double quotes. *)
Theorem plain_name_verbatim packages p :
  In p packages ->
  Forall plain_char (name p) ->
  occurs_in ([34] ++ name p ++ [34]) (pkg_json packages).
Proof.
  intros Hin Hplain. rewrite <- encode_basestring_plain by assumption.
  eapply occurs_in_trans; [apply name_in_package_json|].
  unfold pkg_json, packages_to_py. cbn [json_dumps].
  apply occurs_in_app_r, occurs_in_app_l, occurs_in_join.
  now apply in_map, in_map.
Qed.

End Serialization.

(** ** No run writes the page *)

Section Completion.

Context {R : Runtime}.

Lemma bind_never_ok {A B} (m : M world A) (k : A -> M world B) :
  (forall a w, exists e, fst (k a w) = Raise e) ->
  forall w, exists e, fst (bind m k w) = Raise e.
Proof.
  intros Hk w. unfold bind. destruct (m w) as [[a|e] w1].
  - apply Hk.
  - now exists e.
Qed.

(** Whatever the arguments and the world, [main] ends in an exception:
    [SystemExit] when arguments are missing, else whatever
    [fetch_packages] raised or the [NameError] of [generate_html]. *)
Lemma main_never_completes argv w : exists e, fst (main argv w) = Raise e.
Proof.
  destruct (List.length argv <? 4)%nat eqn:E.
  - rewrite (main_too_few _ _ E). now exists (SystemExit 1).
  - unfold main. rewrite E.
    apply bind_never_ok. intros _ w1.
    apply bind_never_ok. intros packages w2.
    apply bind_never_ok. intros _ w3.
    erewrite bind_raise by apply generate_html_raises.
    now exists (NameError "pkg_count").
Qed.

End Completion.

(** ** Runs on the account acme *)

(** C1: on an empty sequence of packages (account acme, repository
    widgets, no revision), [generate_html] returns no document: it raises
    [NameError] for the name [pkg_count] while evaluating the f-string. *)
Theorem empty_listing_page_raises :
  generate_html (R := acme) [] (u "acme") (u "widgets") [] (start acme tt)
  = (Raise (NameError "pkg_count"), start acme tt).
Proof. reflexivity. Qed.

(** C2: on two packages with three versions in all, the count computed
    is 3, but [generate_html] returns no document in which it could be
    displayed: it raises [NameError] for the name [pkg_count]. *)
Theorem version_count_page_raises :
  total_versions two_packages = 3%Z
  /\ generate_html (R := acme) two_packages (u "acme") (u "widgets") []
       (start acme tt)
     = (Raise (NameError "pkg_count"), start acme tt).
Proof. split; reflexivity. Qed.

(** C8: on one package with one version and a revision identifier,
    [generate_html] returns no document from which the package data could
    be parsed back: it raises [NameError] for the name [pkg_count]. *)
Theorem embedded_data_page_raises :
  generate_html (R := acme) [b_lib] (u "acme") (u "widgets")
    (u "0123456789abcdef") (start acme tt)
  = (Raise (NameError "pkg_count"), start acme tt).
Proof. reflexivity. Qed.

Lemma fetch_packages_sorted_witness :
  acme_fetch = (Ok [a_lib; b_lib], snd acme_fetch)
  /\ StronglySorted name_le [a_lib; b_lib].
Proof.
  split; [vm_compute; reflexivity|].
  apply (fetch_packages_sorted (R := acme) (u "acme") (u "t") (start acme tt)
           [a_lib; b_lib] (snd acme_fetch)).
  vm_compute. reflexivity.
Defined.

Lemma fetch_packages_defaults_witness :
  acme_fetch = (Ok [a_lib; b_lib], snd acme_fetch)
  /\ In b_lib [a_lib; b_lib]
  /\ exists descs d w0 w1 w2 vresp,
       api_get (R := acme) (packages_url (u "acme")) (u "t") (start acme tt)
         = (Ok (PList descs), w0)
       /\ In (PDict d) descs
       /\ fetch_packages_body (R := acme) (u "acme") (u "t") (PDict d) w1
          = (Ok b_lib, w2)
       /\ package_defaults d b_lib
       /\ api_get (R := acme)
            (versions_url (u "acme") (replace_char 47 (u "%2F") (name b_lib)))
            (u "t") (printed (u "  Fetching versions for: " ++ name b_lib) w1)
          = (Ok vresp, w2)
       /\ Forall2 (fun x v =>
                     exists dv, x = PDict dv
                                /\ version_record_of (PDict dv) = Ok v
                                /\ version_defaults dv v)
            (match vresp with PList l => l | _ => [] end) (versions b_lib).
Proof.
  split; [vm_compute; reflexivity|]. split; [right; left; reflexivity|].
  apply (fetch_packages_defaults (R := acme) (u "acme") (u "t") (start acme tt)
           [a_lib; b_lib] (snd acme_fetch)).
  - vm_compute. reflexivity.
  - right. left. reflexivity.
Defined.

(** C4, as stated, fails: the descriptor of a-lib has no package type,
    and the record built from it has the package type maven, which is not
    the empty string. *)
Lemma missing_package_type_is_maven :
  has_key a_lib_descriptor (u "package_type") = false
  /\ fst (fetch_packages_body (R := acme) (u "acme") (u "t")
            (PDict a_lib_descriptor) (start acme tt)) = Ok a_lib
  /\ fst acme_fetch = Ok [a_lib; b_lib]
  /\ package_type a_lib = PStr (u "maven")
  /\ package_type a_lib <> PStr [].
Proof.
  split; [reflexivity|]. split; [vm_compute; reflexivity|].
  split; [vm_compute; reflexivity|]. split; [reflexivity|].
  vm_compute. discriminate.
Qed.

Lemma nonlist_versions_fallback_witness :
  dict_get a_lib_descriptor (u "name") (PStr []) = PStr (u "a-lib")
  /\ urlopen (Runtime := acme)
       (api_request (versions_url (u "acme") (replace_char 47 (u "%2F") (u "a-lib")))
          (u "t")) (outside (start acme tt))
     = (Resp (bq not_found_text), tt)
  /\ decode (bq not_found_text) = Some (q not_found_text)
  /\ json_loads (Runtime := acme) (q not_found_text)
     = Some (PDict [(u "message", PStr (u "Not Found"))])
  /\ is_list (PDict [(u "message", PStr (u "Not Found"))]) = false
  /\ exists r w',
       fetch_packages_body (R := acme) (u "acme") (u "t") (PDict a_lib_descriptor)
         (start acme tt) = (Ok r, w')
       /\ name r = u "a-lib"
       /\ versions r = []
       /\ stderr w' = stderr (start acme tt).
Proof.
  assert (H1 : dict_get a_lib_descriptor (u "name") (PStr []) = PStr (u "a-lib"))
    by reflexivity.
  assert (H2 : urlopen (Runtime := acme)
       (api_request (versions_url (u "acme") (replace_char 47 (u "%2F") (u "a-lib")))
          (u "t")) (outside (start acme tt))
     = (Resp (bq not_found_text), tt)) by (vm_compute; reflexivity).
  assert (H3 : decode (bq not_found_text) = Some (q not_found_text))
    by (vm_compute; reflexivity).
  assert (H4 : json_loads (Runtime := acme) (q not_found_text)
     = Some (PDict [(u "message", PStr (u "Not Found"))]))
    by (vm_compute; reflexivity).
  assert (H5 : is_list (PDict [(u "message", PStr (u "Not Found"))]) = false)
    by reflexivity.
  repeat (split; [assumption|]).
  exact (nonlist_versions_fallback (R := acme) _ _ _ _ _ _ _ _ _ H1 H2 H3 H4 H5).
Defined.

(** C5, as stated, fails: the request for the versions of a-lib is
    answered with status 200 and an object; [fetch_packages] returns the
    record of a-lib with no versions, and the error stream is empty at
    the end of the run.  And when that request is answered with status
    200 and a page of HTML, which is no list either, the loop body raises
    [JSONDecodeError]: there is no fallback and no diagnostic. *)
Lemma nonlist_versions_no_diagnostic :
  urlopen (Runtime := acme)
    (api_request (versions_url (u "acme") (u "a-lib")) (u "t")) tt
  = (Resp (bq not_found_text), tt)
  /\ json_loads (Runtime := acme) (q not_found_text)
     = Some (PDict [(u "message", PStr (u "Not Found"))])
  /\ fst acme_fetch = Ok [a_lib; b_lib]
  /\ versions a_lib = []
  /\ stderr (snd acme_fetch) = []
  /\ urlopen (Runtime := acme_html_versions)
       (api_request (versions_url (u "acme") (u "a-lib")) (u "t")) tt
     = (Resp (bq ["<html></html>"]), tt)
  /\ fetch_packages_body (R := acme_html_versions) (u "acme") (u "t")
       (PDict a_lib_descriptor) (start acme_html_versions tt)
     = (Raise JSONDecodeError,
        exchanged (R := acme_html_versions)
          (api_request (versions_url (u "acme") (u "a-lib")) (u "t"))
          (Resp (bq ["<html></html>"])) tt
          (printed (u "  Fetching versions for: a-lib")
             (start acme_html_versions tt))).
Proof. repeat split; vm_compute; reflexivity. Qed.

(** ** Runs in which the listing request fails *)

Lemma api_get_http_error_witness :
  urlopen (Runtime := acme_denied)
    (api_request (packages_url (u "acme")) (u "t")) (outside (start acme_denied tt))
  = (HTTPErr 401 (bq bad_credentials_text), tt)
  /\ decode (bq bad_credentials_text) = Some (q bad_credentials_text)
  /\ (api_get (R := acme_denied) (packages_url (u "acme")) (u "t")
        (start acme_denied tt)
      = (Ok (empty_default (packages_url (u "acme"))),
         printed_err
           (u "API error " ++ str_of_Z 401 ++ u " for " ++ packages_url (u "acme")
            ++ u ": " ++ q bad_credentials_text)
           (exchanged (R := acme_denied)
              (api_request (packages_url (u "acme")) (u "t"))
              (HTTPErr 401 (bq bad_credentials_text)) tt (start acme_denied tt)))
      /\ (empty_default (packages_url (u "acme")) = PList []
          \/ empty_default (packages_url (u "acme")) = PDict [])).
Proof.
  assert (H1 : urlopen (Runtime := acme_denied)
    (api_request (packages_url (u "acme")) (u "t")) (outside (start acme_denied tt))
    = (HTTPErr 401 (bq bad_credentials_text), tt)) by (vm_compute; reflexivity).
  assert (H2 : decode (bq bad_credentials_text) = Some (q bad_credentials_text))
    by (vm_compute; reflexivity).
  split; [assumption|]. split; [assumption|].
  exact (api_get_http_error (R := acme_denied) _ _ _ _ _ _ _ H1 H2).
Defined.

(** C6, as stated, fails: the listing request ends in status 502 with a
    body of the single byte FF, which is not UTF-8; [api_get] raises
    [UnicodeDecodeError] from its handler, writes nothing to the error
    stream and returns no default. *)
Lemma undecodable_error_body_raises :
  urlopen (Runtime := acme_garbled)
    (api_request (packages_url (u "acme")) (u "t")) tt
  = (HTTPErr 502 [Byte.xff], tt)
  /\ fst (api_get (R := acme_garbled) (packages_url (u "acme")) (u "t")
            (start acme_garbled tt)) = Raise UnicodeDecodeError
  /\ stderr (snd (api_get (R := acme_garbled) (packages_url (u "acme")) (u "t")
                    (start acme_garbled tt))) = [].
Proof. repeat split; vm_compute; reflexivity. Qed.

Lemma main_usage_exit_witness :
  (List.length (positional [u "generate-index.py"; u "acme"; u "widgets"]) < 3)%nat
  /\ main (R := acme) [u "generate-index.py"; u "acme"; u "widgets"] (start acme tt)
     = (Raise (SystemExit 1),
        printed (u "Usage: python3 generate-index.py <owner> <repo> <token> [commit_sha]")
          (start acme tt))
  /\ (3 <= List.length
             (positional [u "generate-index.py"; u "acme"; u "widgets"; u "t"]))%nat
  /\ fetch_packages (R := acme_down) (u "acme") (u "t")
       (printed (u "Fetching packages for " ++ u "acme" ++ u "/" ++ u "widgets"
                 ++ u "...") (start acme_down tt))
     = (Raise (URLError (u "unreachable")),
        snd (fetch_packages (R := acme_down) (u "acme") (u "t")
               (printed (u "Fetching packages for " ++ u "acme" ++ u "/"
                         ++ u "widgets" ++ u "...") (start acme_down tt))))
  /\ exit_status
       (fst (main (R := acme_down)
               [u "generate-index.py"; u "acme"; u "widgets"; u "t"]
               (start acme_down tt))) = 1%Z.
Proof.
  assert (H1 : (List.length (positional [u "generate-index.py"; u "acme"; u "widgets"])
                < 3)%nat) by (cbn; lia).
  assert (H2 : (3 <= List.length
                  (positional [u "generate-index.py"; u "acme"; u "widgets"; u "t"]))%nat)
    by (cbn; lia).
  assert (H3 : fetch_packages (R := acme_down) (u "acme") (u "t")
       (printed (u "Fetching packages for " ++ u "acme" ++ u "/" ++ u "widgets"
                 ++ u "...") (start acme_down tt))
     = (Raise (URLError (u "unreachable")),
        snd (fetch_packages (R := acme_down) (u "acme") (u "t")
               (printed (u "Fetching packages for " ++ u "acme" ++ u "/"
                         ++ u "widgets" ++ u "...") (start acme_down tt)))))
    by (vm_compute; reflexivity).
  split; [assumption|].
  split; [exact (proj1 (proj1 (main_usage_exit (R := acme)
                                 [u "generate-index.py"; u "acme"; u "widgets"]
                                 (start acme tt)) H1))|].
  split; [assumption|]. split; [assumption|].
  exact (proj2 (proj2 (proj2 (main_usage_exit (R := acme_down)
                                [u "generate-index.py"; u "acme"; u "widgets"; u "t"]
                                (start acme_down tt))) H2 _ _ H3)).
Defined.

(** C7, as stated, fails: with three arguments and a host that cannot be
    reached, [main] ends in a [URLError] that nothing catches; the exit
    status is 1 although no argument is missing. *)
Lemma three_arguments_exit_one :
  List.length (positional [u "generate-index.py"; u "acme"; u "widgets"; u "t"])
  = 3%nat
  /\ fst (main (R := acme_down)
            [u "generate-index.py"; u "acme"; u "widgets"; u "t"]
            (start acme_down tt)) = Raise (URLError (u "unreachable"))
  /\ exit_status
       (fst (main (R := acme_down)
               [u "generate-index.py"; u "acme"; u "widgets"; u "t"]
               (start acme_down tt))) = 1%Z.
Proof. repeat split; vm_compute; reflexivity. Qed.

Lemma connection_failure_aborts_witness :
  urlopen (Runtime := acme_down)
    (api_request (packages_url (u "acme")) (u "t")) (outside (start acme_down tt))
  = (ConnErr (u "unreachable"), tt)
  /\ api_get (R := acme_down) (packages_url (u "acme")) (u "t") (start acme_down tt)
     = (Raise (URLError (u "unreachable")),
        exchanged (R := acme_down) (api_request (packages_url (u "acme")) (u "t"))
          (ConnErr (u "unreachable")) tt (start acme_down tt)).
Proof.
  assert (H : urlopen (Runtime := acme_down)
    (api_request (packages_url (u "acme")) (u "t")) (outside (start acme_down tt))
    = (ConnErr (u "unreachable"), tt)) by (vm_compute; reflexivity).
  split; [assumption|].
  exact (proj1 (connection_failure_aborts (R := acme_down)) _ _ _ _ _ H).
Defined.

(** A run of the whole program against the unreachable host. *)
Example main_unreachable :
  fst (main (R := acme_down) [u "generate-index.py"; u "acme"; u "widgets"; u "t"]
         (start acme_down tt)) = Raise (URLError (u "unreachable"))
  /\ files (snd (main (R := acme_down)
                   [u "generate-index.py"; u "acme"; u "widgets"; u "t"]
                   (start acme_down tt))) = [].
Proof. split; vm_compute; reflexivity. Qed.

(** A run of the whole program on the account acme: the packages are
    fetched, then the [NameError] ends the run before any file is made. *)
Example main_acme :
  fst (main (R := acme) [u "generate-index.py"; u "acme"; u "widgets"; u "t"]
         (start acme tt)) = Raise (NameError "pkg_count")
  /\ files (snd (main (R := acme)
                   [u "generate-index.py"; u "acme"; u "widgets"; u "t"]
                   (start acme tt))) = [].
Proof. split; vm_compute; reflexivity. Qed.

(** ** A closing script tag in a package name *)

Lemma plain_name_verbatim_witness :
  In script_package [script_package]
  /\ Forall plain_char (name script_package)
  /\ occurs_in ([34] ++ name script_package ++ [34])
       (pkg_json (R := acme) [script_package]).
Proof.
  assert (H1 : In script_package [script_package]) by (left; reflexivity).
  assert (H2 : Forall plain_char (name script_package)).
  { change (name script_package) with (u "</script>").
    replace (u "</script>") with [60; 47; 115; 99; 114; 105; 112; 116; 62]
      by reflexivity.
    repeat (apply Forall_cons; [unfold plain_char; lia|]). apply Forall_nil. }
  split; [assumption|]. split; [assumption|].
  exact (plain_name_verbatim (R := acme) [script_package] script_package H1 H2).
Defined.

(** C9, as stated, fails: for a package named by a closing script tag,
    the serialization computed by [generate_html] contains that tag. *)
Lemma script_tag_in_pkg_json :
  contains (u "</script>") (pkg_json (R := acme) [script_package]) = true.
Proof. vm_compute. reflexivity. Qed.

(** * Further properties of the program *)

(** ** What one call of [api_get] does *)

Section ApiGetCalls.

Context {R : Runtime}.

Lemma api_get_world url token w :
  exists out n,
    urlopen (api_request url token) (outside w) = (out, n)
    /\ (snd (api_get url token w)
        = exchanged (api_request url token) out n w
        \/ exists code body text,
             out = HTTPErr code body /\ decode body = Some text
             /\ snd (api_get url token w)
                = printed_err (u "API error " ++ str_of_Z code ++ u " for " ++ url
                               ++ u ": " ++ text)
                    (exchanged (api_request url token) out n w)).
Proof.
  rewrite api_get_unfold.
  destruct (urlopen (api_request url token) (outside w)) as [out n].
  exists out, n. split; [reflexivity|].
  destruct out as [body|code body|reason|why|how]; cbn zeta.
  - left. destruct (decode body) as [text|]; [destruct (json_loads text)|];
      reflexivity.
  - destruct (decode body) as [text|] eqn:Hd.
    + right. exists code, body, text. auto.
    + left. reflexivity.
  - left. reflexivity.
  - left. reflexivity.
  - left. reflexivity.
Qed.

(** X1: whatever [urlopen] does, [api_get] prints nothing on the
    standard output, makes no directory and writes no file; it writes to
    the error stream only when [urlopen] raised an [HTTPError] whose body
    is UTF-8, and then the one line that reports that error. *)
Theorem api_get_output url token w :
  stdout (snd (api_get url token w)) = stdout w
  /\ dirs (snd (api_get url token w)) = dirs w
  /\ files (snd (api_get url token w)) = files w
  /\ (stderr (snd (api_get url token w)) = stderr w
      \/ exists code body n text,
           urlopen (api_request url token) (outside w) = (HTTPErr code body, n)
           /\ decode body = Some text
           /\ stderr (snd (api_get url token w))
              = stderr w ++ [u "API error " ++ str_of_Z code ++ u " for " ++ url
                             ++ u ": " ++ text]).
Proof.
  destruct (api_get_world url token w)
    as (out & n & Hu & [E|(code & body & text & -> & Hd & E)]); rewrite E.
  - cbn. auto.
  - cbn. repeat split. right. exists code, body, n, text. auto.
Qed.

(** X2: a response with a 2xx status is not degraded to a default when
    its body cannot be used: if the body is not UTF-8, [api_get] raises
    [UnicodeDecodeError], and if it is text that is not JSON, it raises
    [JSONDecodeError]; in both cases nothing is written to the error
    stream. *)
Theorem api_get_unusable_body url token w body n :
  urlopen (api_request url token) (outside w) = (Resp body, n) ->
  (decode body = None ->
     api_get url token w
     = (Raise UnicodeDecodeError,
        exchanged (api_request url token) (Resp body) n w))
  /\ (forall text, decode body = Some text -> json_loads text = None ->
        api_get url token w
        = (Raise JSONDecodeError,
           exchanged (api_request url token) (Resp body) n w))
  /\ stderr (snd (api_get url token w)) = stderr w.
Proof.
  intros H. rewrite api_get_unfold, H. cbn zeta. repeat split.
  - intros Hd. now rewrite Hd.
  - intros text Hd Hj. now rewrite Hd, Hj.
  - destruct (decode body) as [text|]; [destruct (json_loads text)|];
      reflexivity.
Qed.

End ApiGetCalls.

(** ** The default of an HTTP status error, for the URLs of the program *)

Lemma is_prefix_app p s : is_prefix p (p ++ s) = true.
Proof.
  induction p as [|x p IH]; [reflexivity|]. cbn. now rewrite N.eqb_refl.
Qed.

Lemma contains_middle needle pre post :
  contains needle (pre ++ needle ++ post) = true.
Proof.
  induction pre as [|c pre IH]; cbn [app].
  - assert (H : is_prefix needle (needle ++ post) = true)
      by apply is_prefix_app.
    destruct (needle ++ post); cbn [contains]; now rewrite H.
  - cbn [contains]. rewrite IH. apply orb_true_r.
Qed.

Lemma packages_url_contains owner :
  contains (u "packages") (packages_url owner) = true.
Proof.
  assert (E : packages_url owner
              = (u "https://api.github.com/users/" ++ owner ++ u "/")
                ++ u "packages" ++ u "?package_type=maven&per_page=100").
  { unfold packages_url. rewrite <- !app_assoc. reflexivity. }
  rewrite E. apply contains_middle.
Qed.

Lemma versions_url_contains owner enc :
  contains (u "versions") (versions_url owner enc) = true.
Proof.
  assert (E : versions_url owner enc
              = (u "https://api.github.com/users/" ++ owner
                 ++ u "/packages/maven/" ++ enc ++ u "/")
                ++ u "versions" ++ u "?per_page=50").
  { unfold versions_url. rewrite <- !app_assoc. reflexivity. }
  rewrite E. apply contains_middle.
Qed.

(** X3: for the two kinds of URL that the program requests, the listing
    of an owner's packages and the versions of a package, the default
    that [api_get] returns on an HTTP status error is the empty list,
    whatever the owner and the name: the empty dict is never the default
    in a run of the program. *)
Theorem program_urls_default_to_list owner enc :
  empty_default (packages_url owner) = PList []
  /\ empty_default (versions_url owner enc) = PList [].
Proof.
  unfold empty_default. split.
  - rewrite packages_url_contains. now rewrite orb_true_r.
  - now rewrite versions_url_contains.
Qed.

(** ** Failures that [fetch_packages] survives *)

Section FetchFailures.

Context {R : Runtime}.

Lemma api_get_http_error_default url token w code body n text :
  urlopen (api_request url token) (outside w) = (HTTPErr code body, n) ->
  decode body = Some text ->
  api_get url token w =
    (Ok (empty_default url),
     printed_err (u "API error " ++ str_of_Z code ++ u " for " ++ url
                  ++ u ": " ++ text)
       (exchanged (api_request url token) (HTTPErr code body) n w)).
Proof. intros H Hd. rewrite api_get_unfold, H. cbn zeta. now rewrite Hd. Qed.

Lemma api_get_response url token w body n text v :
  urlopen (api_request url token) (outside w) = (Resp body, n) ->
  decode body = Some text ->
  json_loads text = Some v ->
  api_get url token w
  = (Ok v, exchanged (api_request url token) (Resp body) n w).
Proof.
  intros H Hd Hj. rewrite api_get_unfold, H. cbn zeta. now rewrite Hd, Hj.
Qed.

(** X4: when the listing request ends in an HTTP status error with a
    body that is UTF-8, [fetch_packages] returns the empty list of
    packages; it has made that one request only, and the one line on the
    error stream is the report of the status error (the listing is not
    reported as unexpected). *)
Theorem listing_http_error owner token w code body n text :
  urlopen (api_request (packages_url owner) token) (outside w)
  = (HTTPErr code body, n) ->
  decode body = Some text ->
  fetch_packages owner token w =
    (Ok [],
     printed_err (u "API error " ++ str_of_Z code ++ u " for "
                  ++ packages_url owner ++ u ": " ++ text)
       (exchanged (api_request (packages_url owner) token)
          (HTTPErr code body) n w)).
Proof.
  intros H Hd. unfold fetch_packages.
  erewrite bind_ok by (eapply api_get_http_error_default; eassumption).
  unfold empty_default. rewrite packages_url_contains, orb_true_r.
  reflexivity.
Qed.

(** X5: when the listing request is answered with a 2xx status and a
    JSON value that is not a list, [fetch_packages] returns the empty
    list of packages, writes the line Unexpected response, followed by
    the value, to the error stream, and requests no versions. *)
Theorem listing_not_a_list owner token w body n text v :
  urlopen (api_request (packages_url owner) token) (outside w) = (Resp body, n) ->
  decode body = Some text ->
  json_loads text = Some v ->
  is_list v = false ->
  fetch_packages owner token w =
    (Ok [],
     printed_err (u "Unexpected response: " ++ py_str v)
       (exchanged (api_request (packages_url owner) token) (Resp body) n w)).
Proof.
  intros H Hd Hj Hv. unfold fetch_packages.
  erewrite bind_ok by (eapply api_get_response; eassumption).
  destruct v; try discriminate; reflexivity.
Qed.

(** X6: when the request for the versions of a package ends in an HTTP
    status error with a body that is UTF-8, the loop body does not raise:
    it builds the record of the package with an empty list of versions,
    and the report of the status error is the one line added to the error
    stream. *)
Theorem versions_http_error owner token d s w code body n text :
  dict_get d (u "name") (PStr []) = PStr s ->
  urlopen (api_request (versions_url owner (encoded_name s)) token) (outside w)
  = (HTTPErr code body, n) ->
  decode body = Some text ->
  exists r w',
    fetch_packages_body owner token (PDict d) w = (Ok r, w')
    /\ name r = s
    /\ versions r = []
    /\ stderr w' = stderr w
         ++ [u "API error " ++ str_of_Z code ++ u " for "
             ++ versions_url owner (encoded_name s) ++ u ": " ++ text].
Proof.
  intros Hn H Hd. unfold fetch_packages_body. rewrite Hn.
  unfold bind at 1, print.
  erewrite bind_ok
    by (eapply api_get_http_error_default; [exact H|exact Hd]).
  unfold empty_default. rewrite versions_url_contains. cbn [orb].
  do 2 eexists. split; [reflexivity|]. cbn. auto.
Qed.

End FetchFailures.

(** ** Descriptors that end the loop *)

Lemma comprehension_bare_item vs x :
  In x vs -> is_dict x = false ->
  exists ty, comprehension version_record_of vs = Raise (AttributeError ty "get").
Proof.
  induction vs as [|y vs IH]; intros Hin Hx; [destruct Hin|].
  cbn [comprehension].
  destruct y as [| | | | | |dv];
    try (eexists; reflexivity).
  destruct Hin as [<-|Hin]; [discriminate|].
  destruct (IH Hin Hx) as [ty E]. exists ty.
  now rewrite version_record_of_dict, E.
Qed.

Section FetchLoop.

Context {R : Runtime}.

Lemma body_malformed owner token x w :
  well_named x = false ->
  exists ty attr,
    fst (fetch_packages_body owner token x w) = Raise (AttributeError ty attr).
Proof.
  intros H. unfold fetch_packages_body.
  destruct x as [| | | | | |d]; try (do 2 eexists; reflexivity).
  cbn in H. unfold bind at 1, print.
  destruct (dict_get d (u "name") (PStr [])); try discriminate;
    do 2 eexists; reflexivity.
Qed.

Lemma for_each_raises {A B} (body : A -> M world B) l x :
  In x l ->
  (forall w, exists e, fst (body x w) = Raise e) ->
  forall w, exists e, fst (for_each body l w) = Raise e.
Proof.
  intros Hin Hx. induction l as [|y l IH]; [destruct Hin|]. intros w.
  cbn [for_each]. unfold bind at 1.
  destruct Hin as [->|Hin].
  - destruct (Hx w) as [e He]. destruct (body x w) as [[b|e0] w1];
      cbn in He; [discriminate|]. now exists e0.
  - destruct (body y w) as [[b|e0] w1]; [|now exists e0].
    unfold bind. destruct (IH Hin w1) as [e He].
    destruct (for_each body l w1) as [[ys|e1] w2]; cbn in He;
      [discriminate|]. now exists e1.
Qed.

(** X7: one item of the listing from which no record can be built (an
    item that is not an object, or an object whose name is not a string)
    makes [fetch_packages] raise: no list of packages is returned, not
    even for the well-formed items before it. *)
Theorem malformed_descriptor_aborts owner token w descs w1 x :
  api_get (packages_url owner) token w = (Ok (PList descs), w1) ->
  In x descs ->
  well_named x = false ->
  exists e, fst (fetch_packages owner token w) = Raise e.
Proof.
  intros Hl Hin Hx. unfold fetch_packages. rewrite (bind_ok _ _ _ _ _ Hl).
  unfold bind.
  destruct (for_each_raises (fetch_packages_body owner token) descs x Hin)
    with (w := w1) as [e He].
  { intros w0. destruct (body_malformed owner token x w0 Hx) as (ty & attr & E).
    eexists. exact E. }
  destruct (for_each (fetch_packages_body owner token) descs w1)
    as [[rs|e0] w2]; cbn in He; [discriminate|]. now exists e0.
Qed.

(** X8: when the versions of a package are answered with a list that has
    an item which is not an object, the loop body raises
    [AttributeError] for the method get: the package gets no record. *)
Theorem bare_version_aborts owner token d s w body n text vs x :
  dict_get d (u "name") (PStr []) = PStr s ->
  urlopen (api_request (versions_url owner (encoded_name s)) token) (outside w)
  = (Resp body, n) ->
  decode body = Some text ->
  json_loads text = Some (PList vs) ->
  In x vs ->
  is_dict x = false ->
  exists ty,
    fst (fetch_packages_body owner token (PDict d) w)
    = Raise (AttributeError ty "get").
Proof.
  intros Hn H Hd Hj Hin Hx. unfold fetch_packages_body. rewrite Hn.
  unfold bind at 1, print.
  erewrite bind_ok by (eapply api_get_response; eassumption).
  unfold bind, lift.
  destruct (comprehension_bare_item vs x Hin Hx) as [ty ->]. now exists ty.
Qed.

End FetchLoop.

(** ** What a completed fetch has requested and printed *)

Lemma extends_refl {A} (l : list A) : extends l l.
Proof. exists []. now rewrite app_nil_r. Qed.

Lemma extends_trans {A} (l1 l2 l3 : list A) :
  extends l1 l2 -> extends l2 l3 -> extends l1 l3.
Proof.
  intros [m1 ->] [m2 ->]. exists (m1 ++ m2). now rewrite app_assoc.
Qed.

Lemma extends_one {A} (l : list A) x : extends l (l ++ [x]).
Proof. now exists [x]. Qed.

Section FetchTrace.

Context {R : Runtime}.

Lemma api_get_ok_trace url token w v w' :
  api_get url token w = (Ok v, w') ->
  stdout w' = stdout w
  /\ exists out, http_log w' = http_log w ++ [(api_request url token, out)].
Proof.
  intros H.
  destruct (api_get_world url token w)
    as (out & n & _ & [E|(code & body & text & _ & _ & E)]);
    rewrite H in E; cbn [snd] in E; subst w'; cbn; split; eauto.
Qed.

Lemma body_trace owner token pkg w r w' :
  fetch_packages_body owner token pkg w = (Ok r, w') ->
  stdout w' = stdout w ++ [progress_line (name r)]
  /\ requested w w' [versions_url owner (encoded_name (name r))]
  /\ exists d, pkg = PDict d /\ dict_get d (u "name") (PStr []) = PStr (name r).
Proof.
  intros H.
  destruct (fetch_packages_body_ok _ _ _ _ _ _ H)
    as (d & vresp & -> & Hn & Hv & _).
  destruct (api_get_ok_trace _ _ _ _ _ Hv) as (Ho & out & Hl).
  cbn in Ho, Hl. split; [exact Ho|]. split; [|now exists d].
  eexists. split; [exact Hl|reflexivity].
Qed.

(** The records built by the loop, in the order of the listing. *)
Lemma loop_trace owner token descs :
  forall w rs w',
    for_each (fetch_packages_body owner token) descs w = (Ok rs, w') ->
    stdout w' = stdout w ++ map (fun r => progress_line (name r)) rs
    /\ requested w w'
         (map (fun r => versions_url owner (encoded_name (name r))) rs)
    /\ Forall2 (fun pkg r =>
                  exists d, pkg = PDict d
                            /\ dict_get d (u "name") (PStr []) = PStr (name r))
         descs rs.
Proof.
  induction descs as [|pkg descs IH]; cbn [for_each]; intros w rs w' H.
  - inversion H; subst. cbn. rewrite app_nil_r. split; [reflexivity|].
    split; [|constructor]. exists []. now rewrite app_nil_r.
  - apply bind_ok_inv in H as (r & w1 & Hb & H).
    apply bind_ok_inv in H as (rs0 & w2 & Hl & H). inversion H; subst.
    destruct (body_trace _ _ _ _ _ _ Hb) as (Ho1 & (new1 & Hl1 & Hu1) & Hd).
    destruct (IH _ _ _ Hl) as (Ho2 & (new2 & Hl2 & Hu2) & Hf).
    split; [|split].
    + rewrite Ho2, Ho1. cbn [map]. now rewrite <- app_assoc.
    + exists (new1 ++ new2). split.
      * rewrite Hl2, Hl1. now rewrite app_assoc.
      * rewrite map_app, Hu1, Hu2. reflexivity.
    + now constructor.
Qed.

Lemma fetch_packages_listing owner token w descs w1 result_ w' :
  api_get (packages_url owner) token w = (Ok (PList descs), w1) ->
  fetch_packages owner token w = (Ok result_, w') ->
  exists rs,
    for_each (fetch_packages_body owner token) descs w1 = (Ok rs, w')
    /\ result_ = sort_by_name rs.
Proof.
  intros Hl H. unfold fetch_packages in H. rewrite (bind_ok _ _ _ _ _ Hl) in H.
  apply bind_ok_inv in H as (rs & w2 & Hf & H). inversion H; subst.
  now exists rs.
Qed.

(** X9: when [fetch_packages] returns for a listing, it has made one
    request for the listing and then exactly one request per listed
    package, for the versions of that package, in the order of the
    listing (not in the sorted order of the result), each to the URL with
    the encoded name of the package. *)
Theorem requests_in_listing_order owner token w descs w1 result_ w' :
  api_get (packages_url owner) token w = (Ok (PList descs), w1) ->
  fetch_packages owner token w = (Ok result_, w') ->
  exists names,
    Forall2 (fun pkg s =>
               exists d, pkg = PDict d
                         /\ dict_get d (u "name") (PStr []) = PStr s)
      descs names
    /\ requested w w'
         (packages_url owner
          :: map (fun s => versions_url owner (encoded_name s)) names).
Proof.
  intros Hl H.
  destruct (fetch_packages_listing _ _ _ _ _ _ _ Hl H) as (rs & Hf & _).
  destruct (loop_trace _ _ _ _ _ _ Hf) as (_ & (new & Hn & Hu) & Hd).
  destruct (api_get_ok_trace _ _ _ _ _ Hl) as (_ & out & Hl1).
  exists (map name rs). split.
  - clear - Hd. induction Hd; cbn; constructor; auto.
  - exists ((api_request (packages_url owner) token, out) :: new). split.
    + rewrite Hn, Hl1. now rewrite <- app_assoc.
    + cbn [map fst req_url api_request]. rewrite Hu, map_map. reflexivity.
Qed.

(** X10: when [fetch_packages] returns for a listing, the lines it has
    printed on the standard output are one progress line per listed
    package, with the name of the package, in the order of the listing. *)
Theorem progress_in_listing_order owner token w descs w1 result_ w' :
  api_get (packages_url owner) token w = (Ok (PList descs), w1) ->
  fetch_packages owner token w = (Ok result_, w') ->
  exists names,
    Forall2 (fun pkg s =>
               exists d, pkg = PDict d
                         /\ dict_get d (u "name") (PStr []) = PStr s)
      descs names
    /\ stdout w' = stdout w ++ map progress_line names.
Proof.
  intros Hl H.
  destruct (fetch_packages_listing _ _ _ _ _ _ _ Hl H) as (rs & Hf & _).
  destruct (loop_trace _ _ _ _ _ _ Hf) as (Ho & _ & Hd).
  destruct (api_get_ok_trace _ _ _ _ _ Hl) as (Ho1 & _).
  exists (map name rs). split.
  - clear - Hd. induction Hd; cbn; constructor; auto.
  - rewrite Ho, Ho1, map_map. reflexivity.
Qed.

(** X11: when [fetch_packages] returns for a listing, no package is
    dropped or repeated: the result has one record per item of the
    listing, and the names of its records are, up to order, the names of
    the listed items. *)
Theorem every_listed_package_kept owner token w descs w1 result_ w' :
  api_get (packages_url owner) token w = (Ok (PList descs), w1) ->
  fetch_packages owner token w = (Ok result_, w') ->
  List.length result_ = List.length descs
  /\ exists names,
       Forall2 (fun pkg s =>
                  exists d, pkg = PDict d
                            /\ dict_get d (u "name") (PStr []) = PStr s)
         descs names
       /\ Permutation names (map name result_).
Proof.
  intros Hl H.
  destruct (fetch_packages_listing _ _ _ _ _ _ _ Hl H) as (rs & Hf & ->).
  destruct (loop_trace _ _ _ _ _ _ Hf) as (_ & _ & Hd).
  split.
  - rewrite <- (Permutation_length (sort_by_name_perm rs)).
    symmetry. clear - Hd. induction Hd; cbn; auto.
  - exists (map name rs). split.
    + clear - Hd. induction Hd; cbn; constructor; auto.
    + apply Permutation_map, sort_by_name_perm.
Qed.

(** X12: the sort of [fetch_packages] is stable: the records that have
    one and the same name stand in the result in the order in which the
    loop built them, that is in the order of the listing. *)
Theorem same_name_keeps_listing_order owner token w descs w1 result_ w' :
  api_get (packages_url owner) token w = (Ok (PList descs), w1) ->
  fetch_packages owner token w = (Ok result_, w') ->
  exists rs,
    for_each (fetch_packages_body owner token) descs w1 = (Ok rs, w')
    /\ forall k,
         filter (fun r => str_eqb (name r) k) result_
         = filter (fun r => str_eqb (name r) k) rs.
Proof.
  intros Hl H.
  destruct (fetch_packages_listing _ _ _ _ _ _ _ Hl H) as (rs & Hf & ->).
  exists rs. split; [assumption|]. intros k. apply sort_by_name_stable.
Qed.

End FetchTrace.

(** ** What no run touches *)

Section Frames.

Context {R : Runtime}.

Lemma frame_here {A} (m : M world A) :
  (forall w, dirs (snd (m w)) = dirs w /\ files (snd (m w)) = files w
             /\ (stdout (snd (m w)) = stdout w
                 \/ exists x, stdout (snd (m w)) = stdout w ++ [x])
             /\ (stderr (snd (m w)) = stderr w
                 \/ exists x, stderr (snd (m w)) = stderr w ++ [x])
             /\ (http_log (snd (m w)) = http_log w
                 \/ exists x, http_log (snd (m w)) = http_log w ++ [x])) ->
  frame m.
Proof.
  intros H w. destruct (H w) as (Hd & Hf & Ho & He & Hl).
  repeat split; try assumption.
  - destruct Ho as [->|[x ->]]; [apply extends_refl|apply extends_one].
  - destruct He as [->|[x ->]]; [apply extends_refl|apply extends_one].
  - destruct Hl as [->|[x ->]]; [apply extends_refl|apply extends_one].
Qed.

Lemma frame_pure {A} (m : M world A) : (forall w, snd (m w) = w) -> frame m.
Proof. intros H. apply frame_here. intros w. rewrite H. auto 10. Qed.

Lemma frame_print line : frame (print line).
Proof. apply frame_here. intros w. cbn. repeat split; eauto. Qed.

Lemma frame_print_stderr line : frame (print_stderr line).
Proof. apply frame_here. intros w. cbn. repeat split; eauto. Qed.

Lemma frame_bind {A B} (m : M world A) (k : A -> M world B) :
  frame m -> (forall a, frame (k a)) -> frame (bind m k).
Proof.
  intros Hm Hk w. specialize (Hm w). unfold bind.
  destruct (m w) as [[a|e] w1]; cbn [snd] in *; [|exact Hm].
  destruct Hm as (Hd & Hf & Ho & He & Hl).
  destruct (Hk a w1) as (Hd' & Hf' & Ho' & He' & Hl').
  repeat split; try congruence; eapply extends_trans; eassumption.
Qed.

Lemma frame_api_get url token : frame (api_get url token).
Proof.
  apply frame_here. intros w.
  destruct (api_get_world url token w)
    as (out & n & _ & [E|(code & body & text & _ & _ & E)]);
    rewrite E; cbn; repeat split; eauto.
Qed.

Lemma frame_fetch_packages_body owner token pkg :
  frame (fetch_packages_body owner token pkg).
Proof.
  unfold fetch_packages_body.
  destruct pkg; try (now apply frame_pure).
  apply frame_bind; [apply frame_print|]. intros _.
  destruct (dict_get d (u "name") (PStr [])); try (now apply frame_pure).
  apply frame_bind; [apply frame_api_get|]. intros versions_.
  apply frame_bind; [now apply frame_pure|]. intros vs. now apply frame_pure.
Qed.

Lemma frame_for_each {A B} (body : A -> M world B) l :
  (forall x, frame (body x)) -> frame (for_each body l).
Proof.
  intros Hb. induction l as [|x l IH]; cbn [for_each].
  - now apply frame_pure.
  - apply frame_bind; [apply Hb|]. intros y.
    apply frame_bind; [apply IH|]. intros ys. now apply frame_pure.
Qed.

Lemma frame_fetch_packages owner token : frame (fetch_packages owner token).
Proof.
  unfold fetch_packages. apply frame_bind; [apply frame_api_get|].
  intros packages.
  destruct packages;
    try (apply frame_bind; [apply frame_print_stderr|]; intros _;
         now apply frame_pure).
  apply frame_bind; [|intros rs; now apply frame_pure].
  apply frame_for_each. intros x. apply frame_fetch_packages_body.
Qed.

(** X13: whatever the network answers and however it ends,
    [fetch_packages] makes no directory and writes no file, and it only
    adds to what was printed on the two streams and to the requests made:
    nothing printed or requested before is lost or changed. *)
Theorem fetch_packages_frame owner token : frame (fetch_packages owner token).
Proof. exact (frame_fetch_packages owner token). Qed.

(** X14: for every sequence of package records, account, repository and
    revision, and in every world, [generate_html] raises [NameError] for
    the name [pkg_count] and leaves the world as it was: there is no
    input on which it returns a document. *)
Theorem generate_html_never_returns packages owner repo commit_sha w :
  generate_html packages owner repo commit_sha w
  = (Raise (NameError "pkg_count"), w)
  /\ forall doc w', generate_html packages owner repo commit_sha w <> (Ok doc, w').
Proof.
  split; [reflexivity|]. intros doc w' H.
  rewrite generate_html_raises in H. discriminate.
Qed.

Lemma frame_main argv : frame (main argv).
Proof.
  unfold main. destruct (List.length argv <? 4)%nat.
  - apply frame_bind; [apply frame_print|]. intros _. now apply frame_pure.
  - apply frame_bind; [apply frame_print|]. intros _.
    apply frame_bind; [apply frame_fetch_packages|]. intros packages.
    apply frame_bind; [apply frame_print|]. intros _.
    apply frame_pure. intros w.
    now rewrite (bind_raise _ _ _ _ _ (generate_html_raises _ _ _ _ w)).
Qed.

(** X15: every run of [main], whatever the arguments and the network,
    ends in an exception, and none makes the output directory or writes
    the page: the directories and files are as they were before. *)
Theorem main_never_writes argv w :
  (exists e, fst (main argv w) = Raise e)
  /\ dirs (snd (main argv w)) = dirs w
  /\ files (snd (main argv w)) = files w.
Proof.
  split; [apply main_never_completes|].
  destruct (frame_main argv w) as (Hd & Hf & _). now split.
Qed.

End Frames.

(** ** The token is not printed *)

Section Token.

Context {R : Runtime}.











End Token.

(** ** Values computed for the page and for the URLs *)

Lemma slashes_app a b : slashes (a ++ b) = (slashes a + slashes b)%nat.
Proof. unfold slashes. now rewrite filter_app, length_app. Qed.

Lemma encoded_name_no_slash s : slashes (encoded_name s) = 0%nat.
Proof.
  induction s as [|c s IH]; [reflexivity|].
  change (encoded_name (c :: s))
    with ((if c =? 47 then u "%2F" else [c]) ++ encoded_name s).
  rewrite slashes_app, IH, Nat.add_0_r.
  destruct (N.eqb_spec c 47) as [->|Hc]; [reflexivity|].
  unfold slashes. cbn [filter].
  now rewrite (proj2 (N.eqb_neq 47 c)) by congruence.
Qed.

Lemma encoded_name_without_slash s : slashes s = 0%nat -> encoded_name s = s.
Proof.
  induction s as [|c s IH]; intros H; [reflexivity|].
  change (encoded_name (c :: s))
    with ((if c =? 47 then u "%2F" else [c]) ++ encoded_name s).
  unfold slashes in H. cbn [filter] in H.
  destruct (N.eqb_spec c 47) as [->|Hc].
  - cbn in H. discriminate.
  - rewrite (proj2 (N.eqb_neq 47 c)) in H by congruence.
    cbn [app]. f_equal. now apply IH.
Qed.

(** X17: only the slash is encoded in the name of a package.  The
    encoded name has no slash, whatever the name, so the URL for the
    versions of a package has the same number of slashes for every name;
    and a name without a slash is used as it is, whatever its other
    characters. *)
Theorem encoded_name_has_no_slash owner s :
  slashes (encoded_name s) = 0%nat
  /\ slashes (versions_url owner (encoded_name s))
     = slashes (versions_url owner [])
  /\ (slashes s = 0%nat -> encoded_name s = s).
Proof.
  split; [apply encoded_name_no_slash|]. split.
  - unfold versions_url. rewrite !slashes_app, encoded_name_no_slash.
    reflexivity.
  - apply encoded_name_without_slash.
Qed.

Section PageValues.

Context {R : Runtime}.

(** X18: the short revision is the beginning of the revision identifier
    and has 7 characters, or all of them when the identifier is shorter
    (none for the empty identifier). *)
Theorem short_sha_is_prefix commit_sha :
  (exists rest, commit_sha = short_sha commit_sha ++ rest)
  /\ List.length (short_sha commit_sha) = Nat.min 7 (List.length commit_sha).
Proof.
  assert (E : short_sha commit_sha = firstn 7 commit_sha)
    by (now destruct commit_sha).
  rewrite E. split.
  - exists (skipn 7 commit_sha). now rewrite firstn_skipn.
  - apply length_firstn.
Qed.

Lemma total_versions_perm l1 l2 :
  Permutation l1 l2 -> total_versions l1 = total_versions l2.
Proof.
  unfold total_versions.
  induction 1; cbn [map fold_right]; lia.
Qed.

(** X19: the total that [generate_html] computes is the number of
    version records of all packages together, and it does not depend on
    the order of the packages: sorting them leaves it unchanged. *)
Theorem total_versions_counts_all packages :
  total_versions packages
  = Z.of_nat (List.length (flat_map versions packages))
  /\ total_versions (sort_by_name packages) = total_versions packages.
Proof.
  split.
  - unfold total_versions.
    induction packages as [|p l IH]; [reflexivity|].
    cbn [map fold_right flat_map]. rewrite IH, length_app. lia.
  - symmetry. apply total_versions_perm, sort_by_name_perm.
Qed.

End PageValues.

(** ** The JSON text loses nothing *)

Lemma unhex_hex_digit n : n < 16 -> unhex (hex_digit n) = n.
Proof.
  intros H. unfold unhex, hex_digit.
  destruct (N.ltb_spec n 10).
  - destruct (N.ltb_spec (48 + n) 58); lia.
  - destruct (N.ltb_spec (87 + n) 58); lia.
Qed.

Lemma unescape_escape c r : unescape_one (escape_char c ++ r) = Some (c, r).
Proof.
  unfold escape_char.
  destruct (N.eqb_spec c 92) as [->|H92]; [reflexivity|].
  destruct (N.eqb_spec c 34) as [->|H34]; [reflexivity|].
  destruct (N.eqb_spec c 8) as [->|H8]; [reflexivity|].
  destruct (N.eqb_spec c 12) as [->|H12]; [reflexivity|].
  destruct (N.eqb_spec c 10) as [->|H10]; [reflexivity|].
  destruct (N.eqb_spec c 13) as [->|H13]; [reflexivity|].
  destruct (N.eqb_spec c 9) as [->|H9]; [reflexivity|].
  destruct (N.ltb_spec c 32) as [Hlt|Hge].
  - transitivity (Some (unhex (hex_digit (c / 16)) * 16
                        + unhex (hex_digit (c mod 16)), r));
      [reflexivity|].
    assert (Hd : c / 16 < 16).
    { apply N.Div0.div_lt_upper_bound. lia. }
    assert (Hm : c mod 16 < 16) by (apply N.mod_lt; discriminate).
    rewrite !unhex_hex_digit by assumption.
    pose proof (N.div_mod c 16). do 2 f_equal. lia.
  - cbn [app unescape_one].
    rewrite (proj2 (N.eqb_neq c 34)), (proj2 (N.eqb_neq c 92)) by assumption.
    reflexivity.
Qed.

Lemma unescape_head t x r :
  unescape_one t = Some (x, r) ->
  exists c t', t = c :: t' /\ (c =? 34) = false.
Proof.
  destruct t as [|c t']; cbn; [discriminate|].
  destruct (c =? 34) eqn:E; [discriminate|]. intros _. now exists c, t'.
Qed.

Lemma read_body_escape s :
  forall fuel r,
    (List.length s < fuel)%nat ->
    read_body fuel (flat_map escape_char s ++ 34 :: r) = Some (s, r).
Proof.
  induction s as [|c s IH]; intros fuel r Hf;
    (destruct fuel as [|fuel]; [cbn in Hf; lia|]).
  - reflexivity.
  - cbn [flat_map]. rewrite <- app_assoc.
    pose proof (unescape_escape c (flat_map escape_char s ++ 34 :: r)) as Hu.
    destruct (unescape_head _ _ _ Hu) as (x & t' & Et & Hx).
    rewrite Et in *. cbn [read_body]. rewrite Hx, Hu.
    rewrite IH by (cbn in Hf; lia). reflexivity.
Qed.

Lemma encode_basestring_delimited : self_delimiting encode_basestring.
Proof.
  intros s t r1 r2 H. unfold encode_basestring in H.
  rewrite <- !app_assoc in H. cbn [app] in H. injection H as H.
  pose proof (read_body_escape s (S (Nat.max (List.length s) (List.length t))) r1)
    as Hs.
  pose proof (read_body_escape t (S (Nat.max (List.length s) (List.length t))) r2)
    as Ht.
  rewrite H in Hs. rewrite Hs in Ht by lia.
  specialize (Ht ltac:(lia)). now inversion Ht.
Qed.

(** X20: the encoding of a string for JSON tells where it ends and
    loses nothing: when the encodings of two strings, each followed by
    any text, are the same text, the two strings are the same and so is
    what follows them.  In particular two different strings never have
    the same encoding. *)
Theorem encode_basestring_self_delimiting : self_delimiting encode_basestring.
Proof. exact encode_basestring_delimited. Qed.

Lemma escape_char_printable c : forallb (fun x => 32 <=? x) (escape_char c) = true.
Proof.
  unfold escape_char.
  destruct (c =? 92); [reflexivity|].
  destruct (c =? 34); [reflexivity|].
  destruct (c =? 8); [reflexivity|].
  destruct (c =? 12); [reflexivity|].
  destruct (c =? 10); [reflexivity|].
  destruct (c =? 13); [reflexivity|].
  destruct (c =? 9); [reflexivity|].
  destruct (N.ltb_spec c 32) as [Hlt|Hge].
  - change (forallb (fun x => 32 <=? x)
              [92; 117; 48; 48; hex_digit (c / 16); hex_digit (c mod 16)] = true).
    cbn [forallb]. unfold hex_digit.
    destruct (c / 16 <? 10), (c mod 16 <? 10); cbn [andb];
      rewrite !andb_true_iff; repeat split; try reflexivity;
      (apply N.leb_le; etransitivity; [|apply N.le_add_r]; lia).
  - cbn. rewrite andb_true_r. now apply N.leb_le.
Qed.

(** X21: the encoding of a string for JSON has no character below
    U+0020, whatever the string: every control character of the string,
    a line break included, is written as an escape. *)
Theorem encode_basestring_printable s :
  forallb (fun x => 32 <=? x) (encode_basestring s) = true.
Proof.
  unfold encode_basestring. rewrite !forallb_app. cbn [forallb].
  rewrite andb_true_r. cbn [andb N.leb].
  induction s as [|c s IH]; [reflexivity|].
  cbn [flat_map]. rewrite forallb_app, escape_char_printable. exact IH.
Qed.

Lemma items_tail_join {A} (f : A -> str) l :
  forall x, join (u ", ") (map f (x :: l)) ++ u "]" = f x ++ items_tail f l.
Proof.
  induction l as [|y l IH]; intros x; [reflexivity|].
  change (join (u ", ") (map f (x :: y :: l)))
    with (f x ++ u ", " ++ join (u ", ") (map f (y :: l))).
  rewrite <- !app_assoc, IH. reflexivity.
Qed.

Lemma json_list_cons {A} (f : A -> str) x l :
  json_list f (x :: l) = u "[" ++ f x ++ items_tail f l.
Proof. unfold json_list. now rewrite items_tail_join. Qed.

Lemma items_tail_delimited {A} (P : A -> Prop) (f : A -> str) :
  self_delimiting_on P f -> self_delimiting_on (Forall P) (items_tail f).
Proof.
  intros Hf l1.
  induction l1 as [|x l1 IH]; intros [|y l2] r1 r2 H1 H2 H;
    cbn [items_tail] in H.
  - apply app_inv_head in H. auto.
  - change (u "]") with [93] in H. change (u ", ") with [44; 32] in H.
    discriminate.
  - change (u "]") with [93] in H. change (u ", ") with [44; 32] in H.
    discriminate.
  - inversion H1; subst. inversion H2; subst.
    rewrite <- !app_assoc in H. apply app_inv_head in H.
    apply Hf in H as [-> H]; [|assumption..].
    apply IH in H as [-> ->]; auto.
Qed.

Lemma json_list_delimited {A} (P : A -> Prop) (f : A -> str) :
  self_delimiting_on P f ->
  (forall a, P a -> exists t, f a = 123 :: t) ->
  self_delimiting_on (Forall P) (json_list f).
Proof.
  intros Hf Hb [|x l1] [|y l2] r1 r2 H1 H2 H.
  - unfold json_list in H. apply app_inv_head in H. auto.
  - exfalso. rewrite json_list_cons in H. inversion H2; subst.
    destruct (Hb y) as [t Et]; [assumption|]. rewrite Et in H.
    unfold json_list in H. change (u "[") with [91] in H.
    change (u "]") with [93] in H. discriminate.
  - exfalso. rewrite json_list_cons in H. inversion H1; subst.
    destruct (Hb x) as [t Et]; [assumption|]. rewrite Et in H.
    unfold json_list in H. change (u "[") with [91] in H.
    change (u "]") with [93] in H. discriminate.
  - rewrite !json_list_cons in H. inversion H1; subst. inversion H2; subst.
    rewrite <- !app_assoc in H. apply app_inv_head in H.
    apply Hf in H as [-> H]; [|assumption..].
    apply (items_tail_delimited P f Hf) in H as [-> ->]; auto.
Qed.

Section Lossless.

Context {R : Runtime}.

Lemma json_dumps_list {A} (g : A -> pyval) l :
  json_dumps (PList (map g l)) = json_list (fun x => json_dumps (g x)) l.
Proof. unfold json_list. cbn [json_dumps]. now rewrite map_map. Qed.

Lemma version_json_delimited :
  self_delimiting_on string_version (fun v => json_dumps (version_to_py v)).
Proof.
  intros v1 v2 r1 r2 (n1 & c1 & p1 & h1 & ->) (n2 & c2 & p2 & h2 & ->) H.
  unfold version_to_py in H.
  cbn [json_dumps map join v_name v_created_at v_updated_at v_html_url] in H.
  rewrite <- !app_assoc in H.
  repeat (apply app_inv_head in H).
  apply encode_basestring_delimited in H as [-> H].
  repeat (apply app_inv_head in H).
  apply encode_basestring_delimited in H as [-> H].
  repeat (apply app_inv_head in H).
  apply encode_basestring_delimited in H as [-> H].
  repeat (apply app_inv_head in H).
  apply encode_basestring_delimited in H as [-> H].
  apply app_inv_head in H. auto.
Qed.

Lemma version_json_brace v :
  exists t, json_dumps (version_to_py v) = 123 :: t.
Proof. eexists. unfold version_to_py. cbn [json_dumps]. reflexivity. Qed.

Lemma package_json_brace p :
  exists t, json_dumps (package_to_py p) = 123 :: t.
Proof. eexists. unfold package_to_py. cbn [json_dumps]. reflexivity. Qed.

Lemma package_json_delimited :
  self_delimiting_on string_fields (fun p => json_dumps (package_to_py p)).
Proof.
  intros [nm1 pt1 hu1 ca1 ua1 vs1] [nm2 pt2 hu2 ca2 ua2 vs2] r1 r2
         [(t1 & h1 & c1 & d1 & E1) V1] [(t2 & h2 & c2 & d2 & E2) V2] H.
  cbn in E1, E2, V1, V2.
  destruct E1 as (-> & -> & -> & ->). destruct E2 as (-> & -> & -> & ->).
  unfold package_to_py in H.
  cbn [name package_type html_url created_at updated_at versions] in H.
  cbn [json_dumps map join] in H.
  change (u "[" ++ join (u ", ") (map json_dumps (map version_to_py vs1)) ++ u "]")
    with (json_dumps (PList (map version_to_py vs1))) in H.
  change (u "[" ++ join (u ", ") (map json_dumps (map version_to_py vs2)) ++ u "]")
    with (json_dumps (PList (map version_to_py vs2))) in H.
  rewrite !json_dumps_list in H.
  rewrite <- !app_assoc in H.
  repeat (apply app_inv_head in H).
  apply encode_basestring_delimited in H as [-> H].
  repeat (apply app_inv_head in H).
  apply encode_basestring_delimited in H as [-> H].
  repeat (apply app_inv_head in H).
  apply encode_basestring_delimited in H as [-> H].
  repeat (apply app_inv_head in H).
  apply encode_basestring_delimited in H as [-> H].
  repeat (apply app_inv_head in H).
  apply encode_basestring_delimited in H as [-> H].
  repeat (apply app_inv_head in H).
  apply (json_list_delimited string_version _ version_json_delimited) in H
    as [-> H]; [|intros; apply version_json_brace|assumption..].
  apply app_inv_head in H. auto.
Qed.

(** X22: the serialization that [generate_html] computes loses nothing
    of records whose fields are strings: when two sequences of such
    package records have the same serialization, they are the same
    sequence, with the same names, package types, links, timestamps and
    versions in the same order. *)
Theorem pkg_json_lossless ps qs :
  Forall string_fields ps ->
  Forall string_fields qs ->
  pkg_json ps = pkg_json qs ->
  ps = qs.
Proof.
  intros Hp Hq H. unfold pkg_json, packages_to_py in H.
  rewrite !json_dumps_list in H.
  assert (H' : json_list (fun p => json_dumps (package_to_py p)) ps ++ []
               = json_list (fun p => json_dumps (package_to_py p)) qs ++ [])
    by now rewrite !app_nil_r.
  apply (json_list_delimited string_fields _ package_json_delimited) in H'
    as [-> _]; auto.
  intros; apply package_json_brace.
Qed.

End Lossless.

(** ** Runs that show the hypotheses of these properties to hold *)


Lemma api_get_unusable_body_witness :
  urlopen (Runtime := acme_html)
    (api_request (packages_url (u "acme")) (u "t")) (outside (start acme_html tt))
  = (Resp (bq ["<html></html>"]), tt)
  /\ decode (bq ["<html></html>"]) = Some (u "<html></html>")
  /\ json_loads (Runtime := acme_html) (u "<html></html>") = None
  /\ api_get (R := acme_html) (packages_url (u "acme")) (u "t") (start acme_html tt)
     = (Raise JSONDecodeError,
        exchanged (R := acme_html) (api_request (packages_url (u "acme")) (u "t"))
          (Resp (bq ["<html></html>"])) tt (start acme_html tt)).
Proof.
  assert (H1 : urlopen (Runtime := acme_html)
    (api_request (packages_url (u "acme")) (u "t")) (outside (start acme_html tt))
    = (Resp (bq ["<html></html>"]), tt)) by (vm_compute; reflexivity).
  assert (H2 : decode (bq ["<html></html>"]) = Some (u "<html></html>"))
    by (vm_compute; reflexivity).
  assert (H3 : json_loads (Runtime := acme_html) (u "<html></html>") = None)
    by (vm_compute; reflexivity).
  repeat (split; [assumption|]).
  exact (proj1 (proj2 (api_get_unusable_body (R := acme_html) _ _ _ _ _ H1))
           _ H2 H3).
Defined.

Lemma listing_http_error_witness :
  urlopen (Runtime := acme_denied)
    (api_request (packages_url (u "acme")) (u "t")) (outside (start acme_denied tt))
  = (HTTPErr 401 (bq bad_credentials_text), tt)
  /\ decode (bq bad_credentials_text) = Some (q bad_credentials_text)
  /\ fetch_packages (R := acme_denied) (u "acme") (u "t") (start acme_denied tt)
     = (Ok [],
        printed_err (u "API error " ++ str_of_Z 401 ++ u " for "
                     ++ packages_url (u "acme") ++ u ": " ++ q bad_credentials_text)
          (exchanged (R := acme_denied)
             (api_request (packages_url (u "acme")) (u "t"))
             (HTTPErr 401 (bq bad_credentials_text)) tt (start acme_denied tt))).
Proof.
  assert (H1 : urlopen (Runtime := acme_denied)
    (api_request (packages_url (u "acme")) (u "t")) (outside (start acme_denied tt))
    = (HTTPErr 401 (bq bad_credentials_text), tt)) by (vm_compute; reflexivity).
  assert (H2 : decode (bq bad_credentials_text) = Some (q bad_credentials_text))
    by (vm_compute; reflexivity).
  repeat (split; [assumption|]).
  exact (listing_http_error (R := acme_denied) _ _ _ _ _ _ _ H1 H2).
Defined.

Lemma listing_not_a_list_witness :
  urlopen (Runtime := acme_object)
    (api_request (packages_url (u "acme")) (u "t")) (outside (start acme_object tt))
  = (Resp (bq not_found_text), tt)
  /\ decode (bq not_found_text) = Some (q not_found_text)
  /\ json_loads (Runtime := acme_object) (q not_found_text)
     = Some (PDict [(u "message", PStr (u "Not Found"))])
  /\ is_list (PDict [(u "message", PStr (u "Not Found"))]) = false
  /\ fetch_packages (R := acme_object) (u "acme") (u "t") (start acme_object tt)
     = (Ok [],
        printed_err (u "Unexpected response: "
                     ++ py_str (R := acme_object)
                          (PDict [(u "message", PStr (u "Not Found"))]))
          (exchanged (R := acme_object)
             (api_request (packages_url (u "acme")) (u "t"))
             (Resp (bq not_found_text)) tt (start acme_object tt))).
Proof.
  assert (H1 : urlopen (Runtime := acme_object)
    (api_request (packages_url (u "acme")) (u "t")) (outside (start acme_object tt))
    = (Resp (bq not_found_text), tt)) by (vm_compute; reflexivity).
  assert (H2 : decode (bq not_found_text) = Some (q not_found_text))
    by (vm_compute; reflexivity).
  assert (H3 : json_loads (Runtime := acme_object) (q not_found_text)
     = Some (PDict [(u "message", PStr (u "Not Found"))]))
    by (vm_compute; reflexivity).
  assert (H4 : is_list (PDict [(u "message", PStr (u "Not Found"))]) = false)
    by reflexivity.
  repeat (split; [assumption|]).
  exact (listing_not_a_list (R := acme_object) _ _ _ _ _ _ _ H1 H2 H3 H4).
Defined.

Lemma versions_http_error_witness :
  dict_get a_lib_descriptor (u "name") (PStr []) = PStr (u "a-lib")
  /\ urlopen (Runtime := acme_versions_denied)
       (api_request (versions_url (u "acme") (encoded_name (u "a-lib"))) (u "t"))
       (outside (start acme_versions_denied tt))
     = (HTTPErr 404 (bq not_found_text), tt)
  /\ decode (bq not_found_text) = Some (q not_found_text)
  /\ exists r w',
       fetch_packages_body (R := acme_versions_denied) (u "acme") (u "t")
         (PDict a_lib_descriptor) (start acme_versions_denied tt) = (Ok r, w')
       /\ name r = u "a-lib"
       /\ versions r = []
       /\ stderr w' = stderr (start acme_versions_denied tt)
            ++ [u "API error " ++ str_of_Z 404 ++ u " for "
                ++ versions_url (u "acme") (encoded_name (u "a-lib")) ++ u ": "
                ++ q not_found_text].
Proof.
  assert (H1 : dict_get a_lib_descriptor (u "name") (PStr []) = PStr (u "a-lib"))
    by reflexivity.
  assert (H2 : urlopen (Runtime := acme_versions_denied)
       (api_request (versions_url (u "acme") (encoded_name (u "a-lib"))) (u "t"))
       (outside (start acme_versions_denied tt))
     = (HTTPErr 404 (bq not_found_text), tt)) by (vm_compute; reflexivity).
  assert (H3 : decode (bq not_found_text) = Some (q not_found_text))
    by (vm_compute; reflexivity).
  repeat (split; [assumption|]).
  exact (versions_http_error (R := acme_versions_denied) _ _ _ _ _ _ _ _ _ H1 H2 H3).
Defined.

Lemma malformed_descriptor_aborts_witness :
  api_get (R := acme_mixed) (packages_url (u "acme")) (u "t") (start acme_mixed tt)
  = (Ok (PList [PDict [(u "name", PStr (u "b-lib"))]; PInt 7]),
     snd (api_get (R := acme_mixed) (packages_url (u "acme")) (u "t")
            (start acme_mixed tt)))
  /\ In (PInt 7) [PDict [(u "name", PStr (u "b-lib"))]; PInt 7]
  /\ well_named (PInt 7) = false
  /\ exists e,
       fst (fetch_packages (R := acme_mixed) (u "acme") (u "t") (start acme_mixed tt))
       = Raise e.
Proof.
  assert (H1 : api_get (R := acme_mixed) (packages_url (u "acme")) (u "t")
                 (start acme_mixed tt)
    = (Ok (PList [PDict [(u "name", PStr (u "b-lib"))]; PInt 7]),
       snd (api_get (R := acme_mixed) (packages_url (u "acme")) (u "t")
              (start acme_mixed tt)))) by (vm_compute; reflexivity).
  assert (H2 : In (PInt 7) [PDict [(u "name", PStr (u "b-lib"))]; PInt 7])
    by (right; left; reflexivity).
  assert (H3 : well_named (PInt 7) = false) by reflexivity.
  repeat (split; [assumption|]).
  exact (malformed_descriptor_aborts (R := acme_mixed) _ _ _ _ _ _ H1 H2 H3).
Defined.

Lemma bare_version_aborts_witness :
  dict_get a_lib_descriptor (u "name") (PStr []) = PStr (u "a-lib")
  /\ urlopen (Runtime := acme_bare_versions)
       (api_request (versions_url (u "acme") (encoded_name (u "a-lib"))) (u "t"))
       (outside (start acme_bare_versions tt))
     = (Resp (bq bare_versions_text), tt)
  /\ decode (bq bare_versions_text) = Some (q bare_versions_text)
  /\ json_loads (Runtime := acme_bare_versions) (q bare_versions_text)
     = Some (PList [PStr (u "1.0.0")])
  /\ In (PStr (u "1.0.0")) [PStr (u "1.0.0")]
  /\ is_dict (PStr (u "1.0.0")) = false
  /\ exists ty,
       fst (fetch_packages_body (R := acme_bare_versions) (u "acme") (u "t")
              (PDict a_lib_descriptor) (start acme_bare_versions tt))
       = Raise (AttributeError ty "get").
Proof.
  assert (H1 : dict_get a_lib_descriptor (u "name") (PStr []) = PStr (u "a-lib"))
    by reflexivity.
  assert (H2 : urlopen (Runtime := acme_bare_versions)
       (api_request (versions_url (u "acme") (encoded_name (u "a-lib"))) (u "t"))
       (outside (start acme_bare_versions tt))
     = (Resp (bq bare_versions_text), tt)) by (vm_compute; reflexivity).
  assert (H3 : decode (bq bare_versions_text) = Some (q bare_versions_text))
    by (vm_compute; reflexivity).
  assert (H4 : json_loads (Runtime := acme_bare_versions) (q bare_versions_text)
     = Some (PList [PStr (u "1.0.0")])) by (vm_compute; reflexivity).
  assert (H5 : In (PStr (u "1.0.0")) [PStr (u "1.0.0")]) by (left; reflexivity).
  assert (H6 : is_dict (PStr (u "1.0.0")) = false) by reflexivity.
  repeat (split; [assumption|]).
  exact (bare_version_aborts (R := acme_bare_versions)
           _ _ _ _ _ _ _ _ _ _ H1 H2 H3 H4 H5 H6).
Defined.

Lemma acme_listing_run :
  api_get (R := acme) (packages_url (u "acme")) (u "t") (start acme tt)
  = (Ok (PList acme_listing), acme_listed).
Proof. vm_compute. reflexivity. Qed.

Lemma acme_fetch_run :
  fetch_packages (R := acme) (u "acme") (u "t") (start acme tt)
  = (Ok [a_lib; b_lib], snd acme_fetch).
Proof. vm_compute. reflexivity. Qed.

Lemma requests_in_listing_order_witness :
  api_get (R := acme) (packages_url (u "acme")) (u "t") (start acme tt)
  = (Ok (PList acme_listing), acme_listed)
  /\ fetch_packages (R := acme) (u "acme") (u "t") (start acme tt)
     = (Ok [a_lib; b_lib], snd acme_fetch)
  /\ exists names,
       Forall2 (fun pkg s =>
                  exists d, pkg = PDict d
                            /\ dict_get d (u "name") (PStr []) = PStr s)
         acme_listing names
       /\ requested (start acme tt) (snd acme_fetch)
            (packages_url (u "acme")
             :: map (fun s => versions_url (u "acme") (encoded_name s)) names).
Proof.
  split; [exact acme_listing_run|]. split; [exact acme_fetch_run|].
  exact (requests_in_listing_order (R := acme) _ _ _ _ _ _ _
           acme_listing_run acme_fetch_run).
Defined.

Lemma progress_in_listing_order_witness :
  api_get (R := acme) (packages_url (u "acme")) (u "t") (start acme tt)
  = (Ok (PList acme_listing), acme_listed)
  /\ fetch_packages (R := acme) (u "acme") (u "t") (start acme tt)
     = (Ok [a_lib; b_lib], snd acme_fetch)
  /\ exists names,
       Forall2 (fun pkg s =>
                  exists d, pkg = PDict d
                            /\ dict_get d (u "name") (PStr []) = PStr s)
         acme_listing names
       /\ stdout (snd acme_fetch)
          = stdout (start acme tt) ++ map progress_line names.
Proof.
  split; [exact acme_listing_run|]. split; [exact acme_fetch_run|].
  exact (progress_in_listing_order (R := acme) _ _ _ _ _ _ _
           acme_listing_run acme_fetch_run).
Defined.

Lemma every_listed_package_kept_witness :
  api_get (R := acme) (packages_url (u "acme")) (u "t") (start acme tt)
  = (Ok (PList acme_listing), acme_listed)
  /\ fetch_packages (R := acme) (u "acme") (u "t") (start acme tt)
     = (Ok [a_lib; b_lib], snd acme_fetch)
  /\ List.length [a_lib; b_lib] = List.length acme_listing
  /\ exists names,
       Forall2 (fun pkg s =>
                  exists d, pkg = PDict d
                            /\ dict_get d (u "name") (PStr []) = PStr s)
         acme_listing names
       /\ Permutation names (map name [a_lib; b_lib]).
Proof.
  split; [exact acme_listing_run|]. split; [exact acme_fetch_run|].
  exact (every_listed_package_kept (R := acme) _ _ _ _ _ _ _
           acme_listing_run acme_fetch_run).
Defined.

Lemma same_name_keeps_listing_order_witness :
  api_get (R := acme_twins) (packages_url (u "acme")) (u "t") (start acme_twins tt)
  = (Ok (PList twins_listing),
     snd (api_get (R := acme_twins) (packages_url (u "acme")) (u "t")
            (start acme_twins tt)))
  /\ fetch_packages (R := acme_twins) (u "acme") (u "t") (start acme_twins tt)
     = (Ok [between_twins; twin "first"; twin "second"],
        snd (fetch_packages (R := acme_twins) (u "acme") (u "t")
               (start acme_twins tt)))
  /\ exists rs,
       for_each (fetch_packages_body (R := acme_twins) (u "acme") (u "t"))
         twins_listing
         (snd (api_get (R := acme_twins) (packages_url (u "acme")) (u "t")
                 (start acme_twins tt)))
       = (Ok rs, snd (fetch_packages (R := acme_twins) (u "acme") (u "t")
                        (start acme_twins tt)))
       /\ forall k,
            filter (fun r => str_eqb (name r) k)
              [between_twins; twin "first"; twin "second"]
            = filter (fun r => str_eqb (name r) k) rs.
Proof.
  assert (H1 : api_get (R := acme_twins) (packages_url (u "acme")) (u "t")
                 (start acme_twins tt)
    = (Ok (PList twins_listing),
       snd (api_get (R := acme_twins) (packages_url (u "acme")) (u "t")
              (start acme_twins tt)))) by (vm_compute; reflexivity).
  assert (H2 : fetch_packages (R := acme_twins) (u "acme") (u "t")
                 (start acme_twins tt)
     = (Ok [between_twins; twin "first"; twin "second"],
        snd (fetch_packages (R := acme_twins) (u "acme") (u "t")
               (start acme_twins tt)))) by (vm_compute; reflexivity).
  split; [assumption|]. split; [assumption|].
  exact (same_name_keeps_listing_order (R := acme_twins) _ _ _ _ _ _ _ H1 H2).
Defined.

(** The two records named lib are listed first and third, with the links
    first and second; in the result they stand after the record named a,
    in that same order. *)
Example twins_keep_their_order :
  fst (fetch_packages (R := acme_twins) (u "acme") (u "t") (start acme_twins tt))
  = Ok [between_twins; twin "first"; twin "second"]
  /\ map html_url
       (filter (fun r => str_eqb (name r) (u "lib"))
          [between_twins; twin "first"; twin "second"])
     = [PStr (u "first"); PStr (u "second")].
Proof. split; vm_compute; reflexivity. Qed.

Lemma encoded_name_has_no_slash_witness :
  slashes (u "a#b?c") = 0%nat
  /\ encoded_name (u "a#b?c") = u "a#b?c".
Proof.
  assert (H : slashes (u "a#b?c") = 0%nat) by reflexivity.
  split; [assumption|].
  exact (proj2 (proj2 (encoded_name_has_no_slash (u "acme") (u "a#b?c"))) H).
Defined.


(** A token with a euro sign cannot be sent: the run ends in
    [UnicodeEncodeError] before anything is printed for a package, while
    the run with a plain token returns the two packages.  The two tokens
    are not answered alike. *)
Example euro_token_not_sent :
  fst (fetch_packages (R := acme_latin1) (u "acme") (u "t€") (start acme_latin1 tt))
  = Raise UnicodeEncodeError
  /\ fst (fetch_packages (R := acme_latin1) (u "acme") (u "t") (start acme_latin1 tt))
     = Ok [a_lib; b_lib]
  /\ ~ answered_alike (R := acme_latin1) (u "t") (u "t€").
Proof.
  split; [vm_compute; reflexivity|]. split; [vm_compute; reflexivity|].
  intros H. specialize (H (packages_url (u "acme")) tt).
  vm_compute in H. discriminate.
Qed.

Lemma encode_basestring_self_delimiting_witness :
  encode_basestring (u "a-lib") ++ u ": " = encode_basestring (u "a-lib") ++ u ": "
  /\ u "a-lib" = u "a-lib" /\ u ": " = u ": ".
Proof.
  split; [reflexivity|].
  exact (encode_basestring_self_delimiting (u "a-lib") (u "a-lib") (u ": ") (u ": ")
           eq_refl).
Defined.

Lemma two_packages_string_fields : Forall string_fields two_packages.
Proof.
  repeat constructor; cbn; try (do 4 eexists; repeat split; reflexivity).
Qed.

Lemma pkg_json_lossless_witness :
  Forall string_fields two_packages
  /\ pkg_json (R := acme) two_packages = pkg_json (R := acme) two_packages
  /\ two_packages = two_packages.
Proof.
  split; [exact two_packages_string_fields|]. split; [reflexivity|].
  exact (pkg_json_lossless (R := acme) two_packages two_packages
           two_packages_string_fields two_packages_string_fields eq_refl).
Defined.

(** ** When [fetch_packages] returns, and what [main] makes of it *)


Section Returns.

Context {R : Runtime}.




(** X24: [main] catches nothing and cannot get past [generate_html].
    With three arguments or more, an exception raised by
    [fetch_packages] ends the run as it is, with nothing more printed;
    and when [fetch_packages] returns a list, [main] prints the line
    Found, the number of packages, packages, and the run ends in the
    [NameError] of [generate_html]. *)
Theorem main_follows_fetch (argv : list str) w :
  (4 <= List.length argv)%nat ->
  (forall e w2,
     fetch_packages (nth 1 argv []) (nth 3 argv [])
       (printed (u "Fetching packages for " ++ nth 1 argv [] ++ u "/"
                 ++ nth 2 argv [] ++ u "...") w) = (Raise e, w2) ->
     main argv w = (Raise e, w2))
  /\ (forall result_ w2,
        fetch_packages (nth 1 argv []) (nth 3 argv [])
          (printed (u "Fetching packages for " ++ nth 1 argv [] ++ u "/"
                    ++ nth 2 argv [] ++ u "...") w) = (Ok result_, w2) ->
        main argv w
        = (Raise (NameError "pkg_count"),
           printed (u "Found " ++ str_of_Z (Z.of_nat (List.length result_))
                    ++ u " packages") w2)).
Proof.
  intros Hlen.
  assert (E : (List.length argv <? 4)%nat = false) by (apply Nat.ltb_ge; lia).
  unfold main. rewrite E. split.
  - intros e w2 H. unfold bind at 1, print at 1.
    now rewrite (bind_raise _ _ _ _ _ H).
  - intros result_ w2 H. unfold bind at 1, print at 1.
    rewrite (bind_ok _ _ _ _ _ H). unfold bind at 1, print at 1.
    now rewrite (bind_raise _ _ _ _ _ (generate_html_raises _ _ _ _ _)).
Qed.

End Returns.



Lemma main_follows_fetch_witness :
  (4 <= List.length [u "generate-index.py"; u "acme"; u "widgets"; u "t"])%nat
  /\ fetch_packages (R := acme) (u "acme") (u "t")
       (printed (u "Fetching packages for " ++ u "acme" ++ u "/" ++ u "widgets"
                 ++ u "...") (start acme tt))
     = (Ok [a_lib; b_lib],
        snd (fetch_packages (R := acme) (u "acme") (u "t")
               (printed (u "Fetching packages for " ++ u "acme" ++ u "/"
                         ++ u "widgets" ++ u "...") (start acme tt))))
  /\ fst (main (R := acme) [u "generate-index.py"; u "acme"; u "widgets"; u "t"]
            (start acme tt))
     = Raise (NameError "pkg_count").
Proof.
  assert (H1 : (4 <= List.length [u "generate-index.py"; u "acme"; u "widgets";
                                  u "t"])%nat) by (cbn; lia).
  assert (H2 : fetch_packages (R := acme) (u "acme") (u "t")
       (printed (u "Fetching packages for " ++ u "acme" ++ u "/" ++ u "widgets"
                 ++ u "...") (start acme tt))
     = (Ok [a_lib; b_lib],
        snd (fetch_packages (R := acme) (u "acme") (u "t")
               (printed (u "Fetching packages for " ++ u "acme" ++ u "/"
                         ++ u "widgets" ++ u "...") (start acme tt)))))
    by (vm_compute; reflexivity).
  split; [assumption|]. split; [assumption|].
  rewrite (proj2 (main_follows_fetch (R := acme)
                    [u "generate-index.py"; u "acme"; u "widgets"; u "t"]
                    (start acme tt) H1) _ _ H2).
  reflexivity.
Defined.

(** ** The serialization and the script block *)

Lemma has_lt_app a b : has_lt (a ++ b) = has_lt a || has_lt b.
Proof. apply existsb_app. Qed.

Lemma has_lt_join sep parts :
  has_lt sep = false ->
  (forall x, In x parts -> has_lt x = false) ->
  has_lt (join sep parts) = false.
Proof.
  intros Hs. induction parts as [|x parts IH]; intros H; [reflexivity|].
  destruct parts as [|y parts].
  - apply H. now left.
  - change (join sep (x :: y :: parts)) with (x ++ sep ++ join sep (y :: parts)).
    rewrite !has_lt_app, Hs, (H x (or_introl eq_refl)), IH; [reflexivity|].
    intros z Hz. apply H. now right.
Qed.

Lemma has_lt_escape_char c : (60 =? c) = false -> has_lt (escape_char c) = false.
Proof.
  intros Hc. unfold escape_char.
  destruct (c =? 92); [reflexivity|].
  destruct (c =? 34); [reflexivity|].
  destruct (c =? 8); [reflexivity|].
  destruct (c =? 12); [reflexivity|].
  destruct (c =? 10); [reflexivity|].
  destruct (c =? 13); [reflexivity|].
  destruct (c =? 9); [reflexivity|].
  destruct (c <? 32).
  - change (has_lt [92; 117; 48; 48; hex_digit (c / 16); hex_digit (c mod 16)]
            = false).
    unfold has_lt. cbn [existsb]. unfold hex_digit.
    generalize (c / 16) (c mod 16). intros a b.
    destruct (N.ltb_spec a 10), (N.ltb_spec b 10);
      rewrite !orb_false_iff; repeat split; try reflexivity;
      apply N.eqb_neq; lia.
  - unfold has_lt. cbn [existsb]. now rewrite Hc.
Qed.

Lemma has_lt_encode_basestring s :
  has_lt s = false -> has_lt (encode_basestring s) = false.
Proof.
  intros H. unfold encode_basestring. rewrite !has_lt_app.
  cbn [has_lt existsb N.eqb orb]. rewrite orb_false_r.
  induction s as [|c s IH]; [reflexivity|].
  unfold has_lt in H. cbn [existsb] in H. apply orb_false_iff in H as [Hc Hs].
  cbn [flat_map]. rewrite has_lt_app, has_lt_escape_char by assumption.
  now apply IH.
Qed.

Lemma utf8_decode_ascii bs :
  forallb (fun b => b <? 128) bs = true -> utf8_decode bs = Some bs.
Proof.
  induction bs as [|b bs IH]; cbn [forallb utf8_decode]; intros H;
    [reflexivity|].
  apply andb_true_iff in H as [Hb Hbs]. now rewrite Hb, IH.
Qed.

Lemma list_byte_of_string_cons a s :
  list_byte_of_string (String a s) = byte_of_ascii a :: list_byte_of_string s.
Proof. reflexivity. Qed.

Lemma decimal_uint_bytes d :
  forallb decimal_byte
    (map Byte.to_N (list_byte_of_string (NilEmpty.string_of_uint d))) = true.
Proof.
  induction d; cbn [NilEmpty.string_of_uint]; [reflexivity|..];
    rewrite list_byte_of_string_cons; cbn [map forallb]; rewrite IHd;
    reflexivity.
Qed.

Lemma decimal_int_bytes i :
  forallb decimal_byte
    (map Byte.to_N (list_byte_of_string (NilZero.string_of_int i))) = true.
Proof.
  assert (Hu : forall d, forallb decimal_byte
            (map Byte.to_N (list_byte_of_string (NilZero.string_of_uint d))) = true).
  { intros d. destruct d; try reflexivity; apply decimal_uint_bytes. }
  destruct i as [d|d]; cbn [NilZero.string_of_int]; [apply Hu|].
  rewrite list_byte_of_string_cons. cbn [map forallb]. now rewrite Hu.
Qed.

Lemma has_lt_str_of_Z z : has_lt (str_of_Z z) = false.
Proof.
  unfold str_of_Z, u, decode.
  pose proof (decimal_int_bytes (Z.to_int z)) as H.
  set (bs := map Byte.to_N (list_byte_of_string (NilZero.string_of_int (Z.to_int z))))
    in *.
  assert (H128 : forallb (fun b => b <? 128) bs = true).
  { clear - H. induction bs as [|b bs IH]; [reflexivity|].
    cbn [forallb] in *. apply andb_true_iff in H as [Hb Hbs].
    rewrite IH by assumption. rewrite andb_true_r. unfold decimal_byte in Hb.
    apply N.ltb_lt. apply orb_true_iff in Hb as [Hb|Hb].
    - apply andb_true_iff in Hb as [_ Hb]. apply N.leb_le in Hb. lia.
    - apply N.eqb_eq in Hb. lia. }
  rewrite (utf8_decode_ascii _ H128).
  clear - H. induction bs as [|b bs IH]; [reflexivity|].
  cbn [forallb] in H. apply andb_true_iff in H as [Hb Hbs].
  unfold has_lt. cbn [existsb]. fold (has_lt bs). rewrite IH by assumption.
  rewrite orb_false_r. unfold decimal_byte in Hb. apply N.eqb_neq.
  apply orb_true_iff in Hb as [Hb|Hb].
  - apply andb_true_iff in Hb as [_ Hb]. apply N.leb_le in Hb. lia.
  - apply N.eqb_eq in Hb. lia.
Qed.

Lemma list_sum_cons a l : list_sum (a :: l) = (a + list_sum l)%nat.
Proof. reflexivity. Qed.

Lemma pysize_item x l : In x l -> (pysize x < pysize (PList l))%nat.
Proof.
  change (pysize (PList l)) with (S (list_sum (map pysize l))).
  induction l as [|y l IH]; intros Hin; [destruct Hin|].
  cbn [map]. rewrite list_sum_cons. destruct Hin as [->|H].
  - lia.
  - specialize (IH H). lia.
Qed.

Lemma pysize_value k x d : In (k, x) d -> (pysize x < pysize (PDict d))%nat.
Proof.
  change (pysize (PDict d))
    with (S (list_sum (map (fun kv : str * pyval =>
                              match kv with (_, y) => pysize y end) d))).
  induction d as [|[k' y] d IH]; intros Hin; [destruct Hin|].
  cbn [map]. rewrite list_sum_cons. destruct Hin as [E|H].
  - inversion E; subst. lia.
  - specialize (IH H). lia.
Qed.

Section ScriptBlock.

Context {R : Runtime}.

Lemma has_lt_encode_float f : floats_lt_free -> has_lt (encode_float f) = false.
Proof.
  intros H. destruct f as [s|[|]| |s m e]; try apply H; reflexivity.
Qed.

Lemma has_lt_json_dumps :
  floats_lt_free ->
  forall n v, (pysize v <= n)%nat -> lt_free v = true ->
              has_lt (json_dumps v) = false.
Proof.
  intros Hf. induction n as [|n IH]; intros v Hn Hv.
  - destruct v; cbn in Hn; lia.
  - destruct v as [|b|z|f|s|l|d]; cbn [json_dumps].
    + reflexivity.
    + now destruct b.
    + apply has_lt_str_of_Z.
    + now apply has_lt_encode_float.
    + apply has_lt_encode_basestring. cbn in Hv.
      now apply negb_true_iff in Hv.
    + rewrite !has_lt_app, has_lt_join; [reflexivity|reflexivity|].
      intros x Hx. apply in_map_iff in Hx as (y & <- & Hy).
      apply IH.
      * pose proof (pysize_item y l Hy). lia.
      * cbn [lt_free] in Hv. rewrite forallb_forall in Hv. now apply Hv.
    + rewrite !has_lt_app, has_lt_join; [reflexivity|reflexivity|].
      intros x Hx. apply in_map_iff in Hx as ([k y] & <- & Hy).
      cbn [lt_free] in Hv. rewrite forallb_forall in Hv.
      specialize (Hv _ Hy). cbn beta iota in Hv.
      apply andb_true_iff in Hv as [Hk Hv]. apply negb_true_iff in Hk.
      rewrite !has_lt_app, has_lt_encode_basestring by assumption.
      rewrite IH; [reflexivity| |assumption].
      pose proof (pysize_value k y d Hy). lia.
Qed.

(** C9, as amended: for every sequence of package records in which no
    string has the character [<] (and with floats written, as Python
    writes them, without that character), the serialization that
    [generate_html] computes for the script block has no [<] at all: no
    text that begins with the two characters of a closing tag occurs in
    it, so it cannot end the script block early. *)
Theorem pkg_json_script_safe packages :
  floats_lt_free ->
  lt_free_records packages = true ->
  has_lt (pkg_json packages) = false
  /\ forall closing,
       is_prefix (u "</") closing = true ->
       ~ occurs_in closing (pkg_json packages).
Proof.
  intros Hf Hp.
  assert (H : has_lt (pkg_json packages) = false).
  { unfold pkg_json. now apply (has_lt_json_dumps Hf _ _ (Nat.le_refl _)). }
  split; [exact H|]. intros closing Hc (pre & post & E).
  destruct closing as [|c closing]; [discriminate|].
  change (u "</") with [60; 47] in Hc. cbn [is_prefix] in Hc.
  apply andb_true_iff in Hc as [Hc _]. apply N.eqb_eq in Hc. subst c.
  rewrite E, !has_lt_app in H. cbn in H.
  rewrite orb_true_r in H. discriminate.
Qed.

End ScriptBlock.

Lemma pkg_json_script_safe_witness :
  floats_lt_free (R := acme_floats)
  /\ lt_free_records two_packages = true
  /\ has_lt (pkg_json (R := acme_floats) two_packages) = false
  /\ forall closing,
       is_prefix (u "</") closing = true ->
       ~ occurs_in closing (pkg_json (R := acme_floats) two_packages).
Proof.
  assert (H1 : floats_lt_free (R := acme_floats)) by (intros f; reflexivity).
  assert (H2 : lt_free_records two_packages = true) by (vm_compute; reflexivity).
  split; [assumption|]. split; [assumption|].
  exact (pkg_json_script_safe (R := acme_floats) two_packages H1 H2).
Defined.
